(** * Vega: intent parsing, dispatch and action handlers

    A shallow embedding of the command core of the Vega assistant
    ([llm.py], [main.py], [spot.py], [config.py], [spotify_config.py])
    and the properties its specification states about it.

    Python values that come out of [json.loads] are kept untyped (the
    program itself treats the model's output as untrusted); exceptions are
    explicit results; the handlers run in a state monad over a [world]
    holding the module globals, the two files the program touches, the
    console input still to be read and the trace of what was printed and
    called. *)

From stdpp Require Import gmap strings list pretty.
From Stdlib Require Import ZArith String Ascii.

#[local] Set Warnings "-register-all".
#[local] Open Scope string_scope.

(** ** Python values and exceptions *)

(** A Python [float]: only its sign-less magnitude class is ever observed
    by this program (truthiness). A finite float is [m * 2^e]. *)
Inductive pyfloat : Type :=
| FFinite (m e : Z)
| FInf (negative : bool)
| FNaN.

(** The values [json.loads] can produce. A [dict] with [str] keys is a
    finite map, so that two objects with the same members are equal, as
    Python's [==] on dicts has it. *)
Inductive json : Type :=
| JNull
| JBool (b : bool)
| JInt (z : Z)
| JFloat (f : pyfloat)
| JString (s : string)
| JArray (items : list json)
| JObject (members : gmap string json).

(** The exception classes the program raises, catches or lets through.
    [RequestsJSONDecodeError] is [requests.exceptions.JSONDecodeError],
    a subclass of both [requests.RequestException] and
    [json.JSONDecodeError]. [SpotifyException] carries [str(e)]. Every
    class here derives from [Exception]. *)
Inductive exn : Type :=
| RequestException
| JSONDecodeError
| RequestsJSONDecodeError
| SpotifyException (msg : string)
| TypeError
| AttributeError
| UnboundLocalError
| ValueError
| IndexError
| EOFError
| OtherError.

Definition isinstance_JSONDecodeError (e : exn) : bool :=
  match e with
  | JSONDecodeError | RequestsJSONDecodeError => true
  | _ => false
  end.

Definition isinstance_RequestException (e : exn) : bool :=
  match e with
  | RequestException | RequestsJSONDecodeError => true
  | _ => false
  end.

(** The result of evaluating an expression: a value or a raised exception. *)
Inductive outcome (A : Type) : Type :=
| Return (a : A)
| Raise (e : exn).
Arguments Return {A} a.
Arguments Raise {A} e.

#[export] Instance outcome_ret : MRet outcome := fun A a => Return a.

#[export] Instance outcome_bind : MBind outcome := fun A B k x =>
  match x with
  | Return a => k a
  | Raise e => Raise e
  end.

(** *** Strings *)

(** [needle in haystack] on two [str]. *)
Fixpoint str_contains (needle haystack : string) : bool :=
  String.prefix needle haystack ||
  match haystack with
  | EmptyString => false
  | String _ rest => str_contains needle rest
  end.

(** White space as [str.strip] and [str.isspace] see it. A [str] is kept
    as its UTF-8 bytes, so a white space character is one byte (the
    ASCII ones), two (U+0085, U+00A0) or three (U+1680, U+2000 to U+200A,
    U+2028, U+2029, U+202F, U+205F, U+3000). *)
Definition is_whitespace (c : ascii) : bool :=
  let n := nat_of_ascii c in
  ((9 <=? n) && (n <=? 13) || (28 <=? n) && (n <=? 32))%nat.

Definition is_whitespace2 (c d : ascii) : bool :=
  let m := nat_of_ascii d in
  ((nat_of_ascii c =? 194) && ((m =? 133) || (m =? 160)))%nat.

Definition is_whitespace3 (c d e : ascii) : bool :=
  let l := nat_of_ascii c in
  let m := nat_of_ascii d in
  let n := nat_of_ascii e in
  ((l =? 225) && (m =? 154) && (n =? 128)
   || (l =? 226) && (m =? 128)
      && ((128 <=? n) && (n <=? 138) || (n =? 168) || (n =? 169) || (n =? 175))
   || (l =? 226) && (m =? 129) && (n =? 159)
   || (l =? 227) && (m =? 128) && (n =? 128))%nat.

Fixpoint lstrip (s : string) : string :=
  match s with
  | String c rest =>
      if is_whitespace c then lstrip rest
      else
        match rest with
        | String d rest2 =>
            if is_whitespace2 c d then lstrip rest2
            else
              match rest2 with
              | String e rest3 =>
                  if is_whitespace3 c d e then lstrip rest3 else s
              | EmptyString => s
              end
        | EmptyString => s
        end
  | EmptyString => EmptyString
  end.

(** Nothing but white space is left. *)
Definition all_whitespace (s : string) : bool := String.eqb (lstrip s) "".

Fixpoint rstrip (s : string) : string :=
  if all_whitespace s then EmptyString
  else
    match s with
    | String c rest => String c (rstrip rest)
    | EmptyString => EmptyString
    end.

Definition str_strip (s : string) : string := rstrip (lstrip s).

(** Every byte is an ASCII character. *)
Fixpoint is_ascii (s : string) : bool :=
  match s with
  | EmptyString => true
  | String c rest => (nat_of_ascii c <? 128)%nat && is_ascii rest
  end.

Definition lower_char (c : ascii) : ascii :=
  let n := nat_of_ascii c in
  if ((65 <=? n) && (n <=? 90))%nat then ascii_of_nat (n + 32) else c.

(** [s.lower()], read only through comparisons with ASCII words: the
    ASCII letters are lowered and the other bytes kept, and no other
    character of Unicode lowers to one of the letters compared with
    ([exit], [quit], [s]). *)
Fixpoint str_lower (s : string) : string :=
  match s with
  | EmptyString => EmptyString
  | String c rest => String (lower_char c) (str_lower rest)
  end.

(** [s.startswith(p)]. *)
Definition startswith (s p : string) : bool := String.prefix p s.

(** *** Operations on values *)

(** [bool(v)]. *)
Definition truthy (v : json) : bool :=
  match v with
  | JNull => false
  | JBool b => b
  | JInt z => negb (z =? 0)%Z
  | JFloat (FFinite m _) => negb (m =? 0)%Z
  | JFloat _ => true
  | JString s => negb (String.eqb s "")
  | JArray items => match items with [] => false | _ => true end
  | JObject members => negb (size members =? 0)%nat
  end.

(** [v == s] for a [str] literal [s]. *)
Definition eq_str (v : json) (s : string) : bool :=
  match v with
  | JString s' => String.eqb s' s
  | _ => false
  end.

(** [v.get(key, dflt)]: only a [dict] has the method. *)
Definition py_get (v : json) (key : string) (dflt : json) : outcome json :=
  match v with
  | JObject members => Return (default dflt (members !! key))
  | _ => Raise AttributeError
  end.

(** [key in v] for a [str] key: membership in a [dict], an element equal
    to it in a [list], a substring of a [str]; the other values are not
    iterable. *)
Definition py_in (key : string) (v : json) : outcome bool :=
  match v with
  | JObject members => Return (bool_decide (is_Some (members !! key)))
  | JArray items => Return (existsb (fun x => eq_str x key) items)
  | JString s => Return (str_contains key s)
  | _ => Raise TypeError
  end.

(** [v.strip()]: only a [str] has the method. *)
Definition py_strip (v : json) : outcome string :=
  match v with
  | JString s => Return (str_strip s)
  | _ => Raise AttributeError
  end.

(** [v.startswith(p)]: only a [str] has the method. *)
Definition py_startswith (v : json) (p : string) : outcome bool :=
  match v with
  | JString s => Return (startswith s p)
  | _ => Raise AttributeError
  end.

(** [str(v)] as an f-string shows it: a [str] is itself; [py_repr] is
    [str] on the other values. *)
Definition py_str (py_repr : json -> string) (v : json) : string :=
  match v with
  | JString s => s
  | _ => py_repr v
  end.

(** [hash(v)] succeeds: lists and dicts are unhashable. *)
Definition hashable (v : json) : bool :=
  match v with
  | JArray _ | JObject _ => false
  | _ => true
  end.

(** [int(s)] on an already stripped [str] of ASCII characters: an
    optional sign, then decimal digits, single underscores allowed
    between digits. [None] stands for [ValueError]. (Python's [int] also
    reads the other decimal digits of Unicode and refuses more than 4300
    digits; what is stated through [py_int] is stated for ASCII lines of
    at most 4300 characters.) *)
Fixpoint int_digits (acc : Z) (after_digit : bool) (s : string) : option Z :=
  match s with
  | EmptyString => if after_digit then Some acc else None
  | String c rest =>
      match Ascii.is_nat c with
      | Some d => int_digits (10 * acc + Z.of_nat d) true rest
      | None =>
          if Ascii.eqb c "_" && after_digit
          then match rest with
               | EmptyString => None
               | String c' _ =>
                   if Ascii.eqb c' "_" then None else int_digits acc false rest
               end
          else None
      end
  end.

Definition py_int (s : string) : option Z :=
  match s with
  | String "-" rest => Z.opp <$> int_digits 0 false rest
  | String "+" rest => int_digits 0 false rest
  | _ => int_digits 0 false s
  end.

(** ** config.py *)
Module Config.
Definition OLLAMA_GENERATE_ENDPOINT : string := "http://localhost:11434/api/generate".

Definition CMD_SPOTIFY : string := "spotify".
Definition CMD_NETFLIX : string := "netflix".
Definition CMD_WEBSITE : string := "website".
Definition CMD_UNKNOWN : string := "unknown".

Definition SUPPORTED_INTENTS : list string := [CMD_SPOTIFY; CMD_NETFLIX; CMD_WEBSITE].
End Config.

(** ** spotify_config.py *)
Module SpotifyConfig.
Definition SPOTIPY_CACHE_PATH : string := ".spotify_cache".

Definition SPOTIFY_ACTION_PLAY : string := "play".
Definition SPOTIFY_ACTION_QUEUE : string := "queue".
Definition SPOTIFY_ACTION_SKIP_NEXT : string := "skip_next".
Definition SPOTIFY_ACTION_SKIP_PREVIOUS : string := "skip_previous".
Definition SPOTIFY_ACTION_PAUSE : string := "pause".
Definition SPOTIFY_ACTION_RESUME : string := "resume".
End SpotifyConfig.

(** ** llm.py *)
Module Llm.
Import Config SpotifyConfig.

(** The intent enum of [COMMAND_SCHEMA]: [SUPPORTED_INTENTS + [CMD_UNKNOWN]]. *)
Definition schema_intents : list string := SUPPORTED_INTENTS ++ [CMD_UNKNOWN].

(** The dict literal [{"intent": CMD_UNKNOWN, "query": query}]. *)
Definition unknown_command (query : string) : json :=
  JObject {[ "intent" := JString CMD_UNKNOWN; "query" := JString query ]}.

Section WithDecoder.
(** [json.loads] on a [str]; [None] when it raises [JSONDecodeError]. *)
Variable json_loads : string -> option json.

(** The [try] body of [parse_command] up to the binding of
    [llm_text_output]. [response] is what [requests.post],
    [raise_for_status] and [response.json()] produce together. *)
Definition completion_text (response : outcome json) : outcome string :=
  api_response ← response;
  text ← py_get api_response "response" (JString "");
  py_strip text.

(** The rest of the [try] body. *)
Definition decode_command (user_input llm_text_output : string) : outcome json :=
  match json_loads llm_text_output with
  | None => Raise JSONDecodeError
  | Some parsed_json =>
      present ← py_in "intent" parsed_json;
      if negb present
      then Return (unknown_command user_input)
      else Return parsed_json
  end.

(** The two [except] clauses, tried in order. The first one logs
    [llm_text_output], which is unbound when the exception came before
    its assignment. *)
Definition parse_command_except (user_input : string)
    (llm_text_output : option string) (e : exn) : outcome json :=
  if isinstance_JSONDecodeError e then
    match llm_text_output with
    | Some _ => Return (unknown_command user_input)
    | None => Raise UnboundLocalError
    end
  else if isinstance_RequestException e then
    Return (unknown_command "Connection Error")
  else Raise e.

Definition parse_command (user_input : string) (response : outcome json)
    : outcome json :=
  match completion_text response with
  | Raise e => parse_command_except user_input None e
  | Return llm_text_output =>
      match decode_command user_input llm_text_output with
      | Raise e => parse_command_except user_input (Some llm_text_output) e
      | Return command => Return command
      end
  end.
End WithDecoder.
End Llm.

(** ** The world the handlers act on *)

(** The objects the media service answers with, with the fields the
    program reads. *)
Record device : Type := Device {
  dev_id : string;
  dev_name : string;
  dev_type : string;
  dev_is_active : bool
}.

Record artist : Type := Artist { artist_name : string }.

Record track : Type := Track {
  track_uri : string;
  track_name : string;
  track_artists : list artist
}.

(** A [spotipy.Spotify] client, built from an access token. *)
Record client : Type := Client { access_token : string }.

(** Calls on the client, with their arguments. *)
Inductive api_call : Type :=
| CallDevices
| CallTransferPlayback (device_id : string) (force_play : bool)
| CallSearch (q : json)
| CallAddToQueue (uri device_id : string)
| CallStartPlayback (device_id : string) (uris : option (list string))
| CallCurrentPlayback
| CallNextTrack (device_id : string)
| CallPreviousTrack (device_id : string)
| CallPausePlayback (device_id : string).

(** What an invocation does that can be seen from outside, in order.
    Printed lines are kept without their colour codes and emoji. *)
Inductive event : Type :=
| Print (line : string)
| Prompt (text : string)
| BrowserOpen (url : string)
| Call (c : api_call)
| RemoveFile (path : string).

(** How the media service and the authorization endpoint answer during
    one invocation. [api_search] gives [None] for a falsy result and
    otherwise the list [results['tracks']['items']]; [api_current_playback]
    gives [None] for a falsy result and otherwise the truth value of its
    ['is_playing']; [api_exchange] is [parse_response_code] followed by
    [get_access_token] on the pasted URL. *)
Record spotify_api : Type := {
  api_devices : outcome (list device);
  api_transfer_playback : string -> bool -> outcome unit;
  api_search : json -> outcome (option (list track));
  api_add_to_queue : string -> string -> outcome unit;
  api_start_playback : string -> option (list string) -> outcome unit;
  api_current_playback : outcome (option bool);
  api_next_track : string -> outcome unit;
  api_previous_track : string -> outcome unit;
  api_pause_playback : string -> outcome unit;
  api_authorize_url : string;
  api_exchange : string -> outcome (option string)
}.

(** Module globals of [spot.py], the two files, the console. *)
Record world : Type := World {
  sp : option client;
  spotify_oauth : bool;
  cache_file : option string;
  settings_file : option string;
  stdin : list string;
  trace : list event
}.

Definition set_sp (c : option client) (w : world) : world :=
  World c (spotify_oauth w) (cache_file w) (settings_file w) (stdin w) (trace w).
Definition set_spotify_oauth (b : bool) (w : world) : world :=
  World (sp w) b (cache_file w) (settings_file w) (stdin w) (trace w).
Definition set_cache_file (f : option string) (w : world) : world :=
  World (sp w) (spotify_oauth w) f (settings_file w) (stdin w) (trace w).
Definition set_stdin (l : list string) (w : world) : world :=
  World (sp w) (spotify_oauth w) (cache_file w) (settings_file w) l (trace w).
Definition set_settings_file (file : option string) (w : world) : world :=
  World (sp w) (spotify_oauth w) (cache_file w) file (stdin w) (trace w).

Definition log_event (ev : event) (w : world) : world :=
  World (sp w) (spotify_oauth w) (cache_file w) (settings_file w) (stdin w)
        (trace w ++ [ev]).

(** Statements: they transform the world and return or raise. What was
    done before an exception stays done. *)
Definition M (A : Type) : Type := world -> outcome A * world.

#[export] Instance M_ret : MRet M := fun A a w => (Return a, w).

#[export] Instance M_bind : MBind M := fun A B k m w =>
  match m w with
  | (Return a, w') => k a w'
  | (Raise e, w') => (Raise e, w')
  end.

Definition raise {A} (e : exn) : M A := fun w => (Raise e, w).

Definition lift {A} (x : outcome A) : M A := fun w => (x, w).

Definition get_world : M world := fun w => (Return w, w).

Definition modify (f : world -> world) : M unit := fun w => (Return tt, f w).

Definition emit (ev : event) : M unit := modify (log_event ev).

Definition print (line : string) : M unit := emit (Print line).

Definition webbrowser_open (url : string) : M unit := emit (BrowserOpen url).

(** [input(text)]: shows the prompt and takes the next line, [EOFError]
    when there is none. *)
Definition input (text : string) : M string := fun w =>
  match stdin w with
  | [] => (Raise EOFError, log_event (Prompt text) w)
  | line :: rest => (Return line, set_stdin rest (log_event (Prompt text) w))
  end.

(** [try: body except ...: handler]. A handler re-raises what its clauses
    do not match. *)
Definition try_except {A} (body : M A) (handler : exn -> M A) : M A := fun w =>
  match body w with
  | (Raise e, w') => handler e w'
  | r => r
  end.

(** A call on the client: recorded, then answered by the service. *)
Definition call {A} (c : api_call) (answer : outcome A) : M A :=
  emit (Call c) ;; lift answer.

(** ** spot.py *)
Module Spot.
Import SpotifyConfig.

Definition SETTINGS_FILE : string := "settings.json".

(** [not device_id] on a [str | None]. *)
Definition no_device (device_id : option string) : bool :=
  match device_id with
  | None => true
  | Some d => String.eqb d ""
  end.

(** The test both handlers apply to [str(e)] of a [SpotifyException]. *)
Definition token_expired (msg : string) : bool :=
  str_contains "Invalid Access Token" msg
  || str_contains "The access token expired" msg.

Section WithService.
Variable json_loads : string -> option json.

(** [str(v)] of a value that is not a [str]. *)
Variable py_repr : json -> string.

Variable api : spotify_api.

#[local] Abbreviation py_str := (py_str py_repr).

Definition load_settings : M json :=
  w ← get_world;
  match settings_file w with
  | Some text =>
      match json_loads text with
      | Some settings => mret settings
      | None => raise JSONDecodeError
      end
  | None => mret (JObject {[ "default_play_behavior" := JString "queue" ]})
  end.

Definition init_spotify_oauth : M unit := modify (set_spotify_oauth true).

(** [spotify_oauth.get_cached_token()]: the token in the cache file. *)
Definition get_cached_token : M (option string) :=
  w ← get_world; mret (cache_file w).

(** The code exchange of the interactive flow; a token obtained is
    saved in the cache file by the library. *)
Definition get_access_token (redirected_url : string) : M (option string) :=
  token_info ← lift (api_exchange api redirected_url);
  match token_info with
  | Some t => modify (set_cache_file (Some t)) ;; mret (Some t)
  | None => mret None
  end.

Definition get_spotify_client : M (option client) :=
  w ← get_world;
  (if spotify_oauth w then mret tt else init_spotify_oauth) ;;
  match sp w with
  | Some c => mret (Some c)
  | None =>
      cached ← get_cached_token;
      flow ← match cached with
              | Some t => mret (Some (Some t))
              | None =>
                  let auth_url := api_authorize_url api in
                  print ">> [Spotify Auth] Please open this URL in your browser to log in and authorize Spotify:" ;;
                  print auth_url ;;
                  webbrowser_open auth_url ;;
                  print ">> After authorizing, copy the full URL from your browser's address bar and paste it here:" ;;
                  line ← input "Redirected URL > ";
                  let redirected_url := str_strip line in
                  try_except
                    (token_info ← get_access_token redirected_url;
                     mret (Some token_info))
                    (fun _ =>
                       print "Spotify authentication failed. Please ensure the Redirect URI is correct and you granted access." ;;
                       mret None)
              end;
      match flow with
      | None => mret None
      | Some None => mret None
      | Some (Some t) =>
          let c := Client t in
          modify (set_sp (Some c)) ;; mret (Some c)
      end
  end.

(** Clearing the cached credential: the cache file and the global client. *)
Definition invalidate_token : M unit :=
  w ← get_world;
  match cache_file w with
  | Some _ => emit (RemoveFile SPOTIPY_CACHE_PATH) ;; modify (set_cache_file None)
  | None => mret tt
  end ;;
  modify (set_sp None).

Fixpoint print_devices (i : nat) (devs : list device) : M unit :=
  match devs with
  | [] => mret tt
  | d :: rest =>
      print ("   " +:+ pretty (S i) +:+ ". " +:+ dev_name d +:+ " (" +:+ dev_type d +:+ ")") ;;
      print_devices (S i) rest
  end.

(** One turn of the selection loop on an entered line: [Some r] when the
    function returns [r], [None] when the loop goes round again. *)
Definition select_device (sp_client : client) (devs : list device)
    (choice : string) : M (option (option string)) :=
  try_except
    (if String.eqb (str_lower choice) "s" then
       print "Skipping Spotify action due to no device selection." ;;
       mret (Some None)
     else
       match py_int choice with
       | None => raise ValueError
       | Some n =>
           let device_index := (n - 1)%Z in
           if ((0 <=? device_index) && (device_index <? Z.of_nat (List.length devs)))%Z then
             match devs !! Z.to_nat device_index with
             | Some selected_device =>
                 call (CallTransferPlayback (dev_id selected_device) true)
                      (api_transfer_playback api (dev_id selected_device) true) ;;
                 mret (Some (Some (dev_id selected_device)))
             | None => raise IndexError
             end
           else
             print "Invalid choice. Please enter a valid number." ;;
             mret None
       end)
    (fun e =>
       match e with
       | ValueError =>
           print "Invalid input. Please enter a number or 's'." ;;
           mret None
       | _ => raise e
       end).

(** The [while True] loop: it leaves by a [return] or by an exception,
    and each turn takes one line of [lines], the input still to come. *)
Fixpoint selection_loop (sp_client : client) (devs : list device)
    (lines : list string) : M (option string) :=
  line ← input "Enter number of device to use (or 's' to skip): ";
  match lines with
  | [] => raise EOFError
  | _ :: rest =>
      turn ← select_device sp_client devs (str_strip line);
      match turn with
      | Some r => mret r
      | None => selection_loop sp_client devs rest
      end
  end.

(** The [try] body of [get_active_device_id]. *)
Definition find_device (sp_client : client) : M (option string) :=
  devices ← call CallDevices (api_devices api);
  let active_devices := List.filter dev_is_active devices in
  match active_devices with
  | d :: _ => mret (Some (dev_id d))
  | [] =>
      match devices with
      | _ :: _ =>
          print ">> No active Spotify device found. Available devices:" ;;
          print_devices 0 devices ;;
          w ← get_world;
          selection_loop sp_client devices (stdin w)
      | [] =>
          print "No Spotify devices found. Please open Spotify on a device and ensure it's logged in." ;;
          mret None
      end
  end.

(** The [except] clauses of [get_active_device_id]; the function then
    ends with [return None]. *)
Definition device_check_failed (e : exn) : M (option string) :=
  match e with
  | SpotifyException msg =>
      (if token_expired msg then
         print "Spotify Error: Access token expired. Please restart the app for re-authentication." ;;
         invalidate_token
       else
         print ("An API error occurred while checking Spotify devices: " +:+ msg)) ;;
      mret None
  | _ =>
      print "An unexpected error occurred while getting Spotify devices." ;;
      mret None
  end.

Definition get_active_device_id (sp_client : client) : M (option string) :=
  try_except (find_device sp_client) device_check_failed.

Definition _handle_spotify_play_queue (sp_client : client)
    (device_id : string) (action track_query : json) : M unit :=
  results ← call (CallSearch track_query) (api_search api track_query);
  match results with
  | Some (track :: _) =>
      let track_uri := track_uri track in
      let track_name := track_name track in
      artist_name ← match track_artists track with
                     | a :: _ => mret (artist_name a)
                     | [] => raise IndexError
                     end;
      final_action ←
        (if eq_str action SPOTIFY_ACTION_PLAY then
           settings ← load_settings;
           behavior ← lift (py_get settings "default_play_behavior" JNull);
           if eq_str behavior "queue" then
             print "   (Setting: 'Play' command interpreted as 'Add to Queue'.)" ;;
             mret (JString SPOTIFY_ACTION_QUEUE)
           else
             print "   (Setting: 'Play' command interpreted as 'Play Directly'.)" ;;
             mret action
         else mret action);
      (if eq_str final_action SPOTIFY_ACTION_QUEUE then
         call (CallAddToQueue track_uri device_id)
              (api_add_to_queue api track_uri device_id) ;;
         print ("   Action: Added '" +:+ track_name +:+ "' by " +:+ artist_name +:+ " to queue!")
       else if eq_str final_action SPOTIFY_ACTION_PLAY then
         call (CallStartPlayback device_id (Some [track_uri]))
              (api_start_playback api device_id (Some [track_uri])) ;;
         print ("   Action: Now playing '" +:+ track_name +:+ "' by " +:+ artist_name +:+ "!")
       else mret tt) ;;
      if eq_str final_action SPOTIFY_ACTION_QUEUE then
        current_playback ← call CallCurrentPlayback (api_current_playback api);
        match current_playback with
        | Some true =>
            print "   Note: Music is already playing. Track added to queue."
        | _ =>
            print "   Note: Music was paused, starting playback now." ;;
            call (CallStartPlayback device_id None)
                 (api_start_playback api device_id None)
        end
      else mret tt
  | _ =>
      print ("   No Spotify track found for '" +:+ py_str track_query +:+ "'.")
  end.

Definition _handle_spotify_skip (sp_client : client) (device_id : string)
    (action : json) : M unit :=
  if eq_str action SPOTIFY_ACTION_SKIP_NEXT then
    call (CallNextTrack device_id) (api_next_track api device_id) ;;
    print "   Action: Skipped to next track!"
  else if eq_str action SPOTIFY_ACTION_SKIP_PREVIOUS then
    call (CallPreviousTrack device_id) (api_previous_track api device_id) ;;
    print "   Action: Skipped to previous track!"
  else mret tt.

Definition _handle_spotify_playback_control (sp_client : client)
    (device_id : string) (action : json) : M unit :=
  if eq_str action SPOTIFY_ACTION_PAUSE then
    call (CallPausePlayback device_id) (api_pause_playback api device_id) ;;
    print "   Action: Playback paused."
  else if eq_str action SPOTIFY_ACTION_RESUME then
    call (CallStartPlayback device_id None) (api_start_playback api device_id None) ;;
    print "   Action: Playback resumed."
  else mret tt.

(** The [try] body of [handle_spotify_command]. *)
Definition perform_action (sp_client : client) (device_id : string)
    (action track_query : json) : M unit :=
  if eq_str action SPOTIFY_ACTION_PLAY || eq_str action SPOTIFY_ACTION_QUEUE then
    if negb (truthy track_query) then
      print ("   Error: '" +:+ py_str action +:+ "' command requires a 'track_query'.")
    else _handle_spotify_play_queue sp_client device_id action track_query
  else if eq_str action SPOTIFY_ACTION_SKIP_NEXT
          || eq_str action SPOTIFY_ACTION_SKIP_PREVIOUS then
    _handle_spotify_skip sp_client device_id action
  else if eq_str action SPOTIFY_ACTION_PAUSE
          || eq_str action SPOTIFY_ACTION_RESUME then
    _handle_spotify_playback_control sp_client device_id action
  else
    print ("   Unknown Spotify action: '" +:+ py_str action +:+ "'.").

(** The [except] clauses of [handle_spotify_command]. *)
Definition action_failed (device_id : string) (e : exn) : M unit :=
  match e with
  | SpotifyException msg =>
      if str_contains "No active device found" msg then
        print "   Spotify Error: No active playback device found. Please start Spotify on a device first."
      else if token_expired msg then
        print "   Spotify Error: Access token expired. Attempting to re-authenticate on next command." ;;
        invalidate_token
      else if str_contains "Restriction violated" msg then
        print ("   Spotify Error: Restriction violated. Ensure Spotify app is open on device '" +:+ device_id +:+ "' and you have permissions.")
      else
        print ("   Spotify API error: " +:+ msg)
  | _ => print "   An unexpected error occurred with Spotify."
  end.

Definition handle_spotify_command (command_data : json) : M unit :=
  print ">> [SPOTIFY]" ;;
  spotify_cmd_details ← lift (py_get command_data "spotify_command" JNull);
  if negb (truthy spotify_cmd_details) then
    print "   Error: Missing 'spotify_command' details for Spotify intent."
  else
    action ← lift (py_get spotify_cmd_details "action" JNull);
    track_query ← lift (py_get spotify_cmd_details "track_query" JNull);
    if negb (truthy action) then
      print "   Error: Spotify command missing 'action' field."
    else
      sp_client ← get_spotify_client;
      match sp_client with
      | None => print "   Spotify not connected. Cannot fulfill request."
      | Some sp_client =>
          device_id ← get_active_device_id sp_client;
          match device_id with
          | Some device_id =>
              if String.eqb device_id "" then
                print ("   No suitable Spotify device found or selected. Cannot perform action '" +:+ py_str action +:+ "'.")
              else
                try_except (perform_action sp_client device_id action track_query)
                           (action_failed device_id)
          | None =>
              print ("   No suitable Spotify device found or selected. Cannot perform action '" +:+ py_str action +:+ "'.")
          end
      end.

End WithService.
End Spot.

(** ** main.py *)
Module Main.
Import Config.

Section WithService.
Variable json_loads : string -> option json.
Variable py_repr : json -> string.
Variable api : spotify_api.

#[local] Abbreviation py_str := (py_str py_repr).
#[local] Abbreviation parse_command := (Llm.parse_command json_loads).
#[local] Abbreviation handle_spotify_command :=
  (Spot.handle_spotify_command json_loads py_repr api).

Definition handle_netflix (command_data : json) : M unit :=
  query ← lift (py_get command_data "query" (JString "Netflix search"));
  print ">> [NETFLIX]" ;;
  print "   Action: Searching Netflix" ;;
  print ("   Target: '" +:+ py_str query +:+ "'") ;;
  webbrowser_open ("https://www.netflix.com/search?q=" +:+ py_str query).

Definition handle_website (command_data : json) : M unit :=
  query ← lift (py_get command_data "query" (JString "Website URL"));
  print ">> [BROWSER]" ;;
  print "   Action: Opening Website" ;;
  has_http ← lift (py_startswith query "http://");
  has_https ← (if has_http then mret true else lift (py_startswith query "https://"));
  let query := if negb (has_http || has_https)
               then "https://" +:+ py_str query
               else py_str query in
  print ("   Target: '" +:+ query +:+ "'") ;;
  webbrowser_open query.

Definition handle_unknown (command_data : json) : M unit :=
  query ← lift (py_get command_data "query" (JString "Unknown input"));
  print ">> [SYSTEM]" ;;
  print "   Status: Command not recognized or unsupported." ;;
  print ("   Input was: '" +:+ py_str query +:+ "'").

Definition COMMAND_HANDLERS : gmap string (json -> M unit) :=
  {[ CMD_SPOTIFY := handle_spotify_command;
     CMD_NETFLIX := handle_netflix;
     CMD_WEBSITE := handle_website;
     CMD_UNKNOWN := handle_unknown ]}.

(** [COMMAND_HANDLERS.get(intent, handle_unknown)]: the key is hashed
    first; no key of the map equals a value that is not a [str]. *)
Definition lookup_handler (intent : json) : outcome (json -> M unit) :=
  if hashable intent then
    match intent with
    | JString s => Return (default handle_unknown (COMMAND_HANDLERS !! s))
    | _ => Return handle_unknown
    end
  else Raise TypeError.

(** Lines 113 to 116 of [run_cli]: the routing of a parsed command. *)
Definition dispatch (command_data : json) : M unit :=
  intent ← lift (py_get command_data "intent" (JString CMD_UNKNOWN));
  handler ← lift (lookup_handler intent);
  handler command_data.

(** How the generation service answers the request made for an
    utterance. *)
Variable generate : string -> outcome json.

(** One turn of the [while True] loop of [run_cli]; [true] when the loop
    goes on. Whatever is raised in the turn is logged and dropped. *)
Definition cli_turn : M bool :=
  try_except
    (line ← input "You > ";
     let user_input := str_strip line in
     if String.eqb user_input "" then mret true
     else if String.eqb (str_lower user_input) "exit"
             || String.eqb (str_lower user_input) "quit" then
       print "Shutting down. Goodbye!" ;; mret false
     else
       command_data ← lift (parse_command user_input (generate user_input));
       dispatch command_data ;;
       mret true)
    (fun _ => mret true).
End WithService.
End Main.

(** ** A JSON decoder for the examples

    The theorems below hold for whatever [json.loads] does. The examples
    need one that runs: this one reads the fragment of JSON without
    fractions, exponents and [\u] escapes, and answers [None] (a decode
    error) outside it. Duplicate names keep the last value. *)
Module Decoder.
Definition dquote : ascii := "034"%char.

(** A [str] between double quotes, as it is written in a JSON text. *)
Definition quoted (s : string) : string :=
  String dquote (s +:+ String dquote "").

Fixpoint skip_ws (s : string) : string :=
  match s with
  | String c rest =>
      if Ascii.eqb c " " || Ascii.eqb c "009" || Ascii.eqb c "010" || Ascii.eqb c "013"
      then skip_ws rest else s
  | EmptyString => EmptyString
  end.

Fixpoint drop_prefix (p s : string) : option string :=
  match p, s with
  | EmptyString, _ => Some s
  | String a p', String b s' => if Ascii.eqb a b then drop_prefix p' s' else None
  | _, _ => None
  end.

Definition unescape (c : ascii) : option ascii :=
  if Ascii.eqb c dquote then Some dquote
  else if Ascii.eqb c "\" then Some "\"%char
  else if Ascii.eqb c "/" then Some "/"%char
  else if Ascii.eqb c "b" then Some "008"%char
  else if Ascii.eqb c "f" then Some "012"%char
  else if Ascii.eqb c "n" then Some "010"%char
  else if Ascii.eqb c "r" then Some "013"%char
  else if Ascii.eqb c "t" then Some "009"%char
  else None.

(** After the opening quote: the characters up to the closing quote. *)
Fixpoint string_body (s : string) : option (string * string) :=
  match s with
  | EmptyString => None
  | String c rest =>
      if Ascii.eqb c dquote then Some ("", rest)
      else if Ascii.eqb c "\" then
        match rest with
        | String e rest' =>
            c' ← unescape e;
            '(body, r) ← string_body rest';
            Some (String c' body, r)
        | EmptyString => None
        end
      else if (nat_of_ascii c <? 32)%nat then None
      else '(body, r) ← string_body rest; Some (String c body, r)
  end.

Fixpoint digits (acc : Z) (s : string) : Z * string :=
  match s with
  | String c rest =>
      match Ascii.is_nat c with
      | Some d => digits (10 * acc + Z.of_nat d) rest
      | None => (acc, s)
      end
  | EmptyString => (acc, s)
  end.

(** An integer literal: no leading zero, no fraction, no exponent. *)
Definition integer (s : string) : option (Z * string) :=
  match s with
  | String c rest =>
      match Ascii.is_nat c with
      | Some d =>
          let '(n, r) := if (d =? 0)%nat then (0%Z, rest) else digits (Z.of_nat d) rest in
          match r with
          | String c' _ =>
              if Ascii.eqb c' "." || Ascii.eqb c' "e" || Ascii.eqb c' "E"
              then None else Some (n, r)
          | EmptyString => Some (n, r)
          end
      | None => None
      end
  | EmptyString => None
  end.

Fixpoint items (fuel : nat) (value : string -> option (json * string))
    (s : string) (acc : list json) : option (json * string) :=
  match fuel with
  | O => None
  | S fuel' =>
      '(v, r) ← value s;
      match skip_ws r with
      | String c r' =>
          if Ascii.eqb c "," then items fuel' value r' (acc ++ [v])
          else if Ascii.eqb c "]" then Some (JArray (acc ++ [v]), r')
          else None
      | EmptyString => None
      end
  end.

Fixpoint pairs (fuel : nat) (value : string -> option (json * string))
    (s : string) (acc : gmap string json) : option (json * string) :=
  match fuel with
  | O => None
  | S fuel' =>
      after_quote ← drop_prefix (String dquote "") (skip_ws s);
      '(k, r) ← string_body after_quote;
      after_colon ← drop_prefix ":" (skip_ws r);
      '(v, r') ← value after_colon;
      match skip_ws r' with
      | String c r'' =>
          if Ascii.eqb c "," then pairs fuel' value r'' (<[k := v]> acc)
          else if Ascii.eqb c "}" then Some (JObject (<[k := v]> acc), r'')
          else None
      | EmptyString => None
      end
  end.

Fixpoint value (fuel : nat) (s : string) : option (json * string) :=
  match fuel with
  | O => None
  | S fuel' =>
      match skip_ws s with
      | EmptyString => None
      | String c rest as s' =>
          if Ascii.eqb c "[" then
            match drop_prefix "]" (skip_ws rest) with
            | Some r => Some (JArray [], r)
            | None => items fuel' (value fuel') rest []
            end
          else if Ascii.eqb c "{" then
            match drop_prefix "}" (skip_ws rest) with
            | Some r => Some (JObject ∅, r)
            | None => pairs fuel' (value fuel') rest ∅
            end
          else if Ascii.eqb c dquote then
            '(body, r) ← string_body rest; Some (JString body, r)
          else if Ascii.eqb c "-" then
            '(n, r) ← integer rest; Some (JInt (- n), r)
          else
            match drop_prefix "null" s', drop_prefix "true" s', drop_prefix "false" s' with
            | Some r, _, _ => Some (JNull, r)
            | _, Some r, _ => Some (JBool true, r)
            | _, _, Some r => Some (JBool false, r)
            | _, _, _ => '(n, r) ← integer s'; Some (JInt n, r)
            end
      end
  end.

Definition json_loads (s : string) : option json :=
  '(v, r) ← value (S (String.length s)) s;
  match skip_ws r with
  | EmptyString => Some v
  | _ => None
  end.

(** [str] of the values the examples format. *)
Definition py_repr (v : json) : string :=
  match v with
  | JNull => "None"
  | JBool true => "True"
  | JBool false => "False"
  | JInt z => pretty z
  | _ => "?"
  end.
End Decoder.

(** ** Notions the properties are stated with *)

(** The world after a run of events. *)
Definition log_events (evs : list event) (w : world) : world :=
  foldl (fun w ev => log_event ev w) w evs.

(** The value [settings.get("default_play_behavior")] takes in a world:
    what [load_settings] gives, then the lookup. *)
Definition default_play_behavior (json_loads : string -> option json)
    (w : world) : outcome json :=
  match Spot.load_settings json_loads w with
  | (Return settings, _) => py_get settings "default_play_behavior" JNull
  | (Raise e, _) => Raise e
  end.

(** A call that hands a track to [start_playback]. *)
Definition starts_track (ev : event) : Prop :=
  exists device_id uris, ev = Call (CallStartPlayback device_id (Some uris)).

(** A call that appends a track to the queue. *)
Definition adds_to_queue (ev : event) : Prop :=
  exists uri device_id, ev = Call (CallAddToQueue uri device_id).

(** The removal of the token cache file, when there is one. *)
Definition cache_removal (w : world) : list event :=
  match cache_file w with
  | Some _ => [RemoveFile SpotifyConfig.SPOTIPY_CACHE_PATH]
  | None => []
  end.

(** The entered line is one of the words that end the main loop. *)
Definition leaves_loop (line : string) : Prop :=
  str_lower (str_strip line) = "exit" \/ str_lower (str_strip line) = "quit".

(** A call on the client, of any kind. *)
Definition is_call (ev : event) : bool :=
  match ev with
  | Call _ => true
  | _ => false
  end.

(** What the specification calls URL-encoding a query term: the
    unreserved characters of RFC 3986 stay, every other byte becomes
    [%XX]; the form variant writes a space as [+]. *)
Definition unreserved (c : ascii) : bool :=
  let n := nat_of_ascii c in
  ((48 <=? n) && (n <=? 57) || (65 <=? n) && (n <=? 90)
   || (97 <=? n) && (n <=? 122))%nat
  || Ascii.eqb c "-" || Ascii.eqb c "." || Ascii.eqb c "_" || Ascii.eqb c "~".

Definition hex_digit (n : nat) : ascii :=
  if (n <? 10)%nat then ascii_of_nat (48 + n) else ascii_of_nat (55 + n).

Fixpoint spec_url_encode (form : bool) (s : string) : string :=
  match s with
  | EmptyString => EmptyString
  | String c rest =>
      if unreserved c then String c (spec_url_encode form rest)
      else if form && Ascii.eqb c " " then String "+" (spec_url_encode form rest)
      else
        let n := nat_of_ascii c in
        String "%" (String (hex_digit (n / 16)) (String (hex_digit (n mod 16))
          (spec_url_encode form rest)))
  end.

(** ** Fixtures for the worked examples *)
Module Example.
Import Decoder.

Definition faded : track :=
  Track "spotify:track:faded" "Faded" [Artist "Alan Walker"].

Definition speaker (active : bool) : device :=
  Device "d1" "Kitchen" "Speaker" active.

(** A service on which every call succeeds: one device, one track in
    the catalog, nothing playing. *)
Definition service (active : bool) : spotify_api := {|
  api_devices := Return [speaker active];
  api_transfer_playback := fun _ _ => Return tt;
  api_search := fun _ => Return (Some [faded]);
  api_add_to_queue := fun _ _ => Return tt;
  api_start_playback := fun _ _ => Return tt;
  api_current_playback := Return None;
  api_next_track := fun _ => Return tt;
  api_previous_track := fun _ => Return tt;
  api_pause_playback := fun _ => Return tt;
  api_authorize_url := "https://accounts.spotify.com/authorize";
  api_exchange := fun _ => Return (Some "token-2")
|}.




(** The service of [service true] with another answer to [devices],
    to [search] or to [current_playback]. *)
Definition with_devices (answer : outcome (list device)) : spotify_api := {|
  api_devices := answer;
  api_transfer_playback := api_transfer_playback (service true);
  api_search := api_search (service true);
  api_add_to_queue := api_add_to_queue (service true);
  api_start_playback := api_start_playback (service true);
  api_current_playback := api_current_playback (service true);
  api_next_track := api_next_track (service true);
  api_previous_track := api_previous_track (service true);
  api_pause_playback := api_pause_playback (service true);
  api_authorize_url := api_authorize_url (service true);
  api_exchange := api_exchange (service true)
|}.

Definition with_search (answer : outcome (option (list track))) : spotify_api := {|
  api_devices := api_devices (service true);
  api_transfer_playback := api_transfer_playback (service true);
  api_search := fun _ => answer;
  api_add_to_queue := api_add_to_queue (service true);
  api_start_playback := api_start_playback (service true);
  api_current_playback := api_current_playback (service true);
  api_next_track := api_next_track (service true);
  api_previous_track := api_previous_track (service true);
  api_pause_playback := api_pause_playback (service true);
  api_authorize_url := api_authorize_url (service true);
  api_exchange := api_exchange (service true)
|}.

Definition with_current_playback (answer : outcome (option bool)) : spotify_api := {|
  api_devices := api_devices (service true);
  api_transfer_playback := api_transfer_playback (service true);
  api_search := api_search (service true);
  api_add_to_queue := api_add_to_queue (service true);
  api_start_playback := api_start_playback (service true);
  api_current_playback := answer;
  api_next_track := api_next_track (service true);
  api_previous_track := api_previous_track (service true);
  api_pause_playback := api_pause_playback (service true);
  api_authorize_url := api_authorize_url (service true);
  api_exchange := api_exchange (service true)
|}.

Definition the_client : client := Client "token-1".

(** A session in progress: client cached, token file present, no
    settings file, [lines] still to be typed. *)
Definition session (lines : list string) : world :=
  World (Some the_client) true (Some "token-1") None lines [].

Definition with_settings (text : string) (w : world) : world :=
  World (sp w) (spotify_oauth w) (cache_file w) (Some text) (stdin w) (trace w).

(** The reply of the generation service carrying [text] as completion. *)
Definition completion (text : string) : outcome json :=
  Return (JObject {[ "response" := JString text ]}).

(** The JSON text [{"intent": <value>}]. *)
Definition intent_text (value : string) : string :=
  "{" +:+ quoted "intent" +:+ ": " +:+ value +:+ "}".

End Example.

(** * Properties *)

(** ** The command parser *)

Section ParserProperties.
Variable json_loads : string -> option json.

#[local] Abbreviation completion_text := Llm.completion_text.
#[local] Abbreviation unknown_command := Llm.unknown_command.
#[local] Abbreviation decode_command := (Llm.decode_command json_loads).
#[local] Abbreviation parse_command_except := Llm.parse_command_except.
#[local] Abbreviation parse_command := (Llm.parse_command json_loads).

Lemma unknown_command_intent query :
  py_get (unknown_command query) "intent" JNull = Return (JString Config.CMD_UNKNOWN).
Proof. reflexivity. Qed.

Lemma unknown_command_query query :
  py_get (unknown_command query) "query" JNull = Return (JString query).
Proof. reflexivity. Qed.

(** What the [except] clauses can give back is one of the two fallback
    commands. *)
Lemma parse_command_except_returns user_input bound e v :
  parse_command_except user_input bound e = Return v ->
  v = unknown_command user_input \/ v = unknown_command "Connection Error".
Proof.
  unfold Llm.parse_command_except.
  destruct (isinstance_JSONDecodeError e).
  - destruct bound; [|discriminate]. intros [= <-]. by left.
  - destruct (isinstance_RequestException e); [|discriminate].
    intros [= <-]. by right.
Qed.

(** What the [try] body gives back is the fallback command or the
    decoded value, and then ["intent" in] it holds. *)
Lemma decode_command_returns user_input text v :
  decode_command user_input text = Return v ->
  v = unknown_command user_input
  \/ (json_loads text = Some v /\ py_in "intent" v = Return true).
Proof.
  unfold Llm.decode_command.
  destruct (json_loads text) as [parsed|]; [|discriminate].
  destruct (py_in "intent" parsed) as [[]|] eqn:Hin; simpl.
  - intros [= <-]. by right.
  - intros [= <-]. by left.
  - discriminate.
Qed.

(** A response body that is not JSON reaches the first [except] clause
    before [llm_text_output] is bound. *)
Lemma parse_command_unbound user_input e :
  isinstance_JSONDecodeError e = true ->
  parse_command user_input (Raise e) = Raise UnboundLocalError.
Proof.
  intros He. unfold Llm.parse_command, Llm.parse_command_except. simpl. by rewrite He.
Qed.

(** A completion that decodes to a number, a boolean or [null] makes the
    membership test raise, and no clause catches it. *)
Lemma parse_command_scalar user_input api_response text v :
  completion_text (Return api_response) = Return text ->
  json_loads text = Some v ->
  py_in "intent" v = Raise TypeError ->
  parse_command user_input (Return api_response) = Raise TypeError.
Proof.
  intros Htext Hloads Hin. unfold Llm.parse_command. rewrite Htext.
  unfold Llm.decode_command. rewrite Hloads, Hin. reflexivity.
Qed.

(** X24. What [parse_command] does with each kind of reply: an
    unreachable service (a [RequestException] from the request) gives
    [{intent: unknown, query: "Connection Error"}]; a completion text
    that does not decode gives [{intent: unknown, query: <utterance>}];
    so does a decoded value in which the test ["intent" in] is false (an
    object without the key, a list without that element, a string
    without that substring); a decoded number, boolean or [null], on
    which the test raises, makes [parse_command] raise [TypeError]. *)
Theorem parse_command_fallbacks (user_input : string) :
  parse_command user_input (Raise RequestException)
    = Return (unknown_command "Connection Error")
  /\ (forall api_response text,
        completion_text (Return api_response) = Return text ->
        json_loads text = None ->
        parse_command user_input (Return api_response)
          = Return (unknown_command user_input))
  /\ (forall api_response text v,
        completion_text (Return api_response) = Return text ->
        json_loads text = Some v ->
        py_in "intent" v = Return false ->
        parse_command user_input (Return api_response)
          = Return (unknown_command user_input))
  /\ (forall api_response text v,
        completion_text (Return api_response) = Return text ->
        json_loads text = Some v ->
        (v = JNull \/ (exists b, v = JBool b) \/ (exists z, v = JInt z)
         \/ (exists f, v = JFloat f)) ->
        parse_command user_input (Return api_response) = Raise TypeError).
Proof.
  split; [reflexivity|]. split; [|split].
  - intros api_response text Htext Hloads.
    unfold Llm.parse_command. rewrite Htext.
    unfold Llm.decode_command. by rewrite Hloads.
  - intros api_response text v Htext Hloads Hin.
    unfold Llm.parse_command. rewrite Htext.
    unfold Llm.decode_command. by rewrite Hloads, Hin.
  - intros api_response text v Htext Hloads Hv.
    apply (parse_command_scalar user_input api_response text v); [done..|].
    destruct Hv as [->|[[b ->]|[[z ->]|[f ->]]]]; reflexivity.
Qed.

(** C3, as the code has it. When [parse_command] returns a Command (a
    JSON object), the Command has an ["intent"] key; it is the fallback
    Command, whose intent is ["unknown"], or it is the object the
    completion text decodes to, returned unchanged, whose intent is
    whatever the model wrote. *)
Theorem parse_command_intent_present user_input response members :
  parse_command user_input response = Return (JObject members) ->
  is_Some (members !! "intent")
  /\ (JObject members = unknown_command user_input
      \/ JObject members = unknown_command "Connection Error"
      \/ exists text,
           completion_text response = Return text
           /\ json_loads text = Some (JObject members)).
Proof.
  unfold Llm.parse_command.
  destruct (completion_text response) as [text|e] eqn:Htext.
  - destruct (decode_command user_input text) as [v|e] eqn:Hdec.
    + intros [= ->].
      apply decode_command_returns in Hdec as [Hv|[Hloads Hin]].
      * split; [|by left]. injection Hv as ->. by eexists.
      * split; [|right; right; by exists text].
        simpl in Hin. injection Hin as Hin. by apply bool_decide_eq_true in Hin.
    + intros Hex. apply parse_command_except_returns in Hex as [Hv|Hv];
        (split; [injection Hv as ->; by eexists|]); auto.
  - intros Hex. apply parse_command_except_returns in Hex as [Hv|Hv];
      (split; [injection Hv as ->; by eexists|]); auto.
Qed.
End ParserProperties.

(** C1, where the code departs from it. The completion text [42] is
    valid JSON, so no decode error is raised, and the test
    ["intent" not in 42] raises [TypeError], which neither [except] clause
    catches: [parse_command] raises past its boundary instead of returning
    a Command with intent ["unknown"]. *)
Theorem parse_command_raises_type_error :
  Llm.parse_command Decoder.json_loads "turn it up" (Example.completion "42")
    = Raise TypeError.
Proof. reflexivity. Qed.

(** C2, where the code departs from it. The completion text [null] is
    valid JSON and the decoded value has no ["intent"] key, yet
    [parse_command] does not fall back to
    [{intent: unknown, query: <utterance>}]: the test
    ["intent" not in None] raises [TypeError], and so it does for [true].
    The sibling values that are containers reach the fallback: [[]],
    the string ["abc"] and [{}]. *)
Theorem parse_command_null_lacks_intent :
  Decoder.json_loads "null" = Some JNull
  /\ Llm.parse_command Decoder.json_loads "turn it up" (Example.completion "null")
     = Raise TypeError
  /\ Llm.parse_command Decoder.json_loads "turn it up" (Example.completion "true")
     = Raise TypeError
  /\ Llm.parse_command Decoder.json_loads "turn it up" (Example.completion "[]")
     = Return (Llm.unknown_command "turn it up")
  /\ Llm.parse_command Decoder.json_loads "turn it up"
       (Example.completion (Decoder.quoted "abc"))
     = Return (Llm.unknown_command "turn it up")
  /\ Llm.parse_command Decoder.json_loads "turn it up" (Example.completion "{}")
     = Return (Llm.unknown_command "turn it up").
Proof. repeat split; reflexivity. Qed.

Lemma parse_command_fallbacks_witness :
  Llm.parse_command Decoder.json_loads "hello" (Example.completion "not json")
    = Return (Llm.unknown_command "hello")
  /\ Llm.parse_command Decoder.json_loads "hello" (Example.completion "{}")
    = Return (Llm.unknown_command "hello")
  /\ Llm.parse_command Decoder.json_loads "hello" (Example.completion "[1, 2]")
    = Return (Llm.unknown_command "hello")
  /\ Llm.parse_command Decoder.json_loads "hello" (Example.completion "false")
    = Raise TypeError.
Proof.
  destruct (parse_command_fallbacks Decoder.json_loads "hello")
    as (_ & Htext & Hkey & Hscalar).
  split; [|split; [|split]].
  - apply (Htext _ "not json"); reflexivity.
  - apply (Hkey _ "{}" (JObject ∅)); reflexivity.
  - apply (Hkey _ "[1, 2]" (JArray [JInt 1; JInt 2])); reflexivity.
  - apply (Hscalar _ "false" (JBool false)); [reflexivity..|].
    right. left. by exists false.
Defined.

Lemma banana_undeclared : "banana" ∉ Llm.schema_intents.
Proof.
  unfold Llm.schema_intents, Config.SUPPORTED_INTENTS. simpl.
  rewrite !elem_of_cons, elem_of_nil. intros H.
  repeat destruct H as [H|H]; try discriminate H; done.
Qed.

(** C3 fails as stated: the object the model wrote is returned as it is,
    with an intent outside the four values, or [null]. *)
Lemma parse_command_intent_outside_enum :
  Llm.parse_command Decoder.json_loads "dance"
      (Example.completion (Example.intent_text (Decoder.quoted "banana")))
    = Return (JObject {[ "intent" := JString "banana" ]})
  /\ ("banana" ∉ Llm.schema_intents)
  /\ Llm.parse_command Decoder.json_loads "dance"
      (Example.completion (Example.intent_text "null"))
    = Return (JObject {[ "intent" := JNull ]}).
Proof.
  split; [reflexivity|]. split; [apply banana_undeclared|reflexivity].
Qed.

Lemma parse_command_intent_present_witness :
  Llm.parse_command Decoder.json_loads "dance"
      (Example.completion (Example.intent_text (Decoder.quoted "banana")))
    = Return (JObject {[ "intent" := JString "banana" ]})
  /\ is_Some (({[ "intent" := JString "banana" ]} : gmap string json) !! "intent").
Proof.
  split; [reflexivity|].
  apply (parse_command_intent_present Decoder.json_loads "dance"
           (Example.completion (Example.intent_text (Decoder.quoted "banana")))).
  reflexivity.
Defined.

(** ** Dispatch, the video-search handler and the website handler *)

Section MainProperties.
Variable json_loads : string -> option json.
Variable py_repr : json -> string.
Variable api : spotify_api.

Import Config.

#[local] Abbreviation schema_intents := Llm.schema_intents.
#[local] Abbreviation lookup_handler := (Main.lookup_handler json_loads py_repr api).
#[local] Abbreviation dispatch := (Main.dispatch json_loads py_repr api).
#[local] Abbreviation handle_spotify_command :=
  (Spot.handle_spotify_command json_loads py_repr api).
#[local] Abbreviation handle_netflix := (Main.handle_netflix py_repr).
#[local] Abbreviation handle_website := (Main.handle_website py_repr).
#[local] Abbreviation handle_unknown := (Main.handle_unknown py_repr).

Lemma lookup_handler_declared :
  lookup_handler (JString CMD_SPOTIFY) = Return handle_spotify_command
  /\ lookup_handler (JString CMD_NETFLIX) = Return handle_netflix
  /\ lookup_handler (JString CMD_WEBSITE) = Return handle_website
  /\ lookup_handler (JString CMD_UNKNOWN) = Return handle_unknown.
Proof. repeat split; reflexivity. Qed.

(** A key that is none of the four is not in the map. *)
Lemma lookup_handler_undeclared (s : string) :
  s ∉ schema_intents ->
  lookup_handler (JString s) = Return handle_unknown.
Proof.
  unfold Llm.schema_intents, SUPPORTED_INTENTS. simpl.
  rewrite !not_elem_of_cons. intros (H1 & H2 & H3 & H4 & _).
  unfold Main.lookup_handler, Main.COMMAND_HANDLERS. simpl.
  rewrite !lookup_insert_ne, lookup_singleton_ne by done. reflexivity.
Qed.

(** A hashable value that is not one of the four strings finds nothing. *)
Lemma lookup_handler_other (v : json) :
  hashable v = true ->
  (forall s, s ∈ schema_intents -> v <> JString s) ->
  lookup_handler v = Return handle_unknown.
Proof.
  intros Hhash Hne. destruct v; try discriminate Hhash; try reflexivity.
  apply lookup_handler_undeclared. intros Hin. by apply (Hne s).
Qed.

Lemma lookup_handler_unhashable (v : json) :
  hashable v = false -> lookup_handler v = Raise TypeError.
Proof. intros H. unfold Main.lookup_handler. by rewrite H. Qed.

(** Dispatch is the handler the lookup gives, run on the command. *)
Lemma dispatch_runs (members : gmap string json) handler w :
  lookup_handler (default (JString CMD_UNKNOWN) (members !! "intent"))
    = Return handler ->
  dispatch (JObject members) w = handler (JObject members) w.
Proof.
  intros H. unfold Main.dispatch, mbind, M_bind, lift. simpl.
  rewrite H. reflexivity.
Qed.

(** X25. The routing of [run_cli]: for a Command whose intent is one of
    the four declared strings the matching handler runs on that Command;
    for any other hashable intent (another string, a number, a boolean,
    null) and for a missing intent the unknown handler runs; an intent
    that is a JSON array or object cannot be hashed, the lookup raises
    [TypeError] and no handler runs. *)
Theorem dispatch_routes (members : gmap string json) (w : world) :
  let command_data := JObject members in
  (members !! "intent" = Some (JString CMD_SPOTIFY) ->
     dispatch command_data w = handle_spotify_command command_data w)
  /\ (members !! "intent" = Some (JString CMD_NETFLIX) ->
     dispatch command_data w = handle_netflix command_data w)
  /\ (members !! "intent" = Some (JString CMD_WEBSITE) ->
     dispatch command_data w = handle_website command_data w)
  /\ (members !! "intent" = Some (JString CMD_UNKNOWN) ->
     dispatch command_data w = handle_unknown command_data w)
  /\ (forall v, members !! "intent" = Some v ->
     hashable v = true ->
     (forall s, s ∈ schema_intents -> v <> JString s) ->
     dispatch command_data w = handle_unknown command_data w)
  /\ (members !! "intent" = None ->
     dispatch command_data w = handle_unknown command_data w)
  /\ (forall v, members !! "intent" = Some v ->
     hashable v = false ->
     dispatch command_data w = (Raise TypeError, w)).
Proof.
  simpl. destruct lookup_handler_declared as (Hs & Hn & Hw & Hu).
  repeat split.
  - intros H. apply dispatch_runs. by rewrite H.
  - intros H. apply dispatch_runs. by rewrite H.
  - intros H. apply dispatch_runs. by rewrite H.
  - intros H. apply dispatch_runs. by rewrite H.
  - intros v H Hhash Hne. apply dispatch_runs. rewrite H. simpl.
    by apply lookup_handler_other.
  - intros H. apply dispatch_runs. by rewrite H.
  - intros v H Hhash.
    unfold Main.dispatch, mbind, M_bind, lift. simpl. rewrite H. simpl.
    by rewrite lookup_handler_unhashable.
Qed.

(** C8, as the code has it. The video-search handler opens the fixed
    endpoint [https://www.netflix.com/search?q=] followed by the query
    text as it is (for a [str] query the very same characters, nothing
    encoded), or by the placeholder when the Command has no query. *)
Theorem handle_netflix_url (members : gmap string json) (w : world) :
  let query := default (JString "Netflix search") (members !! "query") in
  handle_netflix (JObject members) w
    = (Return tt,
       log_events [Print ">> [NETFLIX]";
                   Print "   Action: Searching Netflix";
                   Print ("   Target: '" +:+ py_str py_repr query +:+ "'");
                   BrowserOpen ("https://www.netflix.com/search?q="
                                +:+ py_str py_repr query)] w)
  /\ (forall s, py_str py_repr (JString s) = s).
Proof. split; reflexivity. Qed.

(** C9. For a Command whose query is the string [query], the website
    handler opens [query] unchanged when it starts with [http://] or
    [https://], and [https://] followed by [query] otherwise. *)
Theorem handle_website_url (members : gmap string json) (query : string)
    (w : world) :
  members !! "query" = Some (JString query) ->
  let url := if startswith query "http://" || startswith query "https://"
             then query else "https://" +:+ query in
  handle_website (JObject members) w
    = (Return tt,
       log_events [Print ">> [BROWSER]";
                   Print "   Action: Opening Website";
                   Print ("   Target: '" +:+ url +:+ "'");
                   BrowserOpen url] w).
Proof.
  intros H. unfold Main.handle_website, mbind, M_bind, lift. simpl.
  rewrite H. simpl.
  destruct (startswith query "http://"); simpl; [reflexivity|].
  destruct (startswith query "https://"); reflexivity.
Qed.
End MainProperties.

(** C4, where the code departs from it. The model wrote a JSON array as
    the intent; [parse_command] returns the Command as it is, and
    dispatching it raises [TypeError] (a list cannot be hashed) before
    any handler is chosen, where the unknown handler, which every other
    undeclared intent reaches, would have printed its three lines. *)
Lemma dispatch_unhashable_intent :
  let command_data := JObject {[ "intent" := JArray [] ]} in
  Llm.parse_command Decoder.json_loads "dance"
      (Example.completion (Example.intent_text "[]"))
    = Return command_data
  /\ Main.dispatch Decoder.json_loads Decoder.py_repr (Example.service true)
       command_data (Example.session [])
     = (Raise TypeError, Example.session [])
  /\ Main.handle_unknown Decoder.py_repr command_data (Example.session [])
     = (Return tt,
        log_events [Print ">> [SYSTEM]";
                    Print "   Status: Command not recognized or unsupported.";
                    Print "   Input was: 'Unknown input'"] (Example.session [])).
Proof. repeat split; reflexivity. Qed.

Lemma dispatch_routes_witness :
  let api := Example.service true in
  let website := JObject {[ "intent" := JString "website";
                            "query" := JString "example.com" ]} in
  let other := JObject {[ "intent" := JString "banana" ]} in
  let bare := JObject ∅ in
  Main.dispatch Decoder.json_loads Decoder.py_repr api website (Example.session [])
    = Main.handle_website Decoder.py_repr website (Example.session [])
  /\ Main.dispatch Decoder.json_loads Decoder.py_repr api other (Example.session [])
    = Main.handle_unknown Decoder.py_repr other (Example.session [])
  /\ Main.dispatch Decoder.json_loads Decoder.py_repr api bare (Example.session [])
    = Main.handle_unknown Decoder.py_repr bare (Example.session []).
Proof.
  simpl. split; [|split].
  - apply (dispatch_routes Decoder.json_loads Decoder.py_repr (Example.service true)
             {[ "intent" := JString "website"; "query" := JString "example.com" ]}).
    reflexivity.
  - apply (dispatch_routes Decoder.json_loads Decoder.py_repr (Example.service true)
             {[ "intent" := JString "banana" ]} (Example.session []))
      with (v := JString "banana"); [reflexivity|reflexivity|].
    intros s Hin [= <-]. by apply banana_undeclared.
  - apply (dispatch_routes Decoder.json_loads Decoder.py_repr (Example.service true) ∅).
    reflexivity.
Defined.

(** C8 fails as stated: for the query [stranger things] the URL opened
    carries the space as it is; it contains neither [stranger%20things]
    nor [stranger+things], the URL-encoded term. *)
Lemma handle_netflix_query_not_encoded :
  let command_data := JObject {[ "intent" := JString "netflix";
                                 "query" := JString "stranger things" ]} in
  let url := "https://www.netflix.com/search?q=stranger things" in
  Main.handle_netflix Decoder.py_repr command_data (Example.session [])
    = (Return tt,
       log_events [Print ">> [NETFLIX]";
                   Print "   Action: Searching Netflix";
                   Print "   Target: 'stranger things'";
                   BrowserOpen url] (Example.session []))
  /\ spec_url_encode false "stranger things" = "stranger%20things"
  /\ spec_url_encode true "stranger things" = "stranger+things"
  /\ str_contains (spec_url_encode false "stranger things") url = false
  /\ str_contains (spec_url_encode true "stranger things") url = false.
Proof. repeat split; reflexivity. Qed.

Lemma handle_website_url_witness :
  Main.handle_website Decoder.py_repr
      (JObject {[ "intent" := JString "website"; "query" := JString "example.com" ]})
      (Example.session [])
    = (Return tt,
       log_events [Print ">> [BROWSER]";
                   Print "   Action: Opening Website";
                   Print "   Target: 'https://example.com'";
                   BrowserOpen "https://example.com"] (Example.session []))
  /\ Main.handle_website Decoder.py_repr
      (JObject {[ "intent" := JString "website";
                  "query" := JString "https://example.com" ]})
      (Example.session [])
    = (Return tt,
       log_events [Print ">> [BROWSER]";
                   Print "   Action: Opening Website";
                   Print "   Target: 'https://example.com'";
                   BrowserOpen "https://example.com"] (Example.session [])).
Proof.
  split.
  - apply (handle_website_url Decoder.py_repr
             {[ "intent" := JString "website"; "query" := JString "example.com" ]}
             "example.com").
    reflexivity.
  - apply (handle_website_url Decoder.py_repr
             {[ "intent" := JString "website";
                "query" := JString "https://example.com" ]}
             "https://example.com").
    reflexivity.
Defined.

(** ** The media handler: play and queue *)

Ltac not_among :=
  repeat (first [ apply Forall_nil_2 | apply Forall_cons_2 ]);
  try (intros (? & ? & [=])).

Section PlayQueueProperties.
Variable json_loads : string -> option json.
Variable py_repr : json -> string.
Variable api : spotify_api.
Import SpotifyConfig.

#[local] Abbreviation load_settings := (Spot.load_settings json_loads).
#[local] Abbreviation _handle_spotify_play_queue :=
  (Spot._handle_spotify_play_queue json_loads py_repr api).

(** Reading the settings leaves the world as it is, and what was logged
    before does not change what is read. *)
Lemma settings_lookup w behavior ev :
  default_play_behavior json_loads w = Return behavior ->
  exists settings,
    load_settings (log_event ev w) = (Return settings, log_event ev w)
    /\ py_get settings "default_play_behavior" JNull = Return behavior.
Proof.
  unfold default_play_behavior, Spot.load_settings, mbind, M_bind, get_world.
  simpl. destruct (settings_file w) as [text|].
  - destruct (json_loads text) as [settings|]; [|discriminate].
    intros H. by exists settings.
  - intros H. by eexists.
Qed.

Lemma no_settings_file_behavior w :
  settings_file w = None ->
  default_play_behavior json_loads w = Return (JString "queue").
Proof.
  intros H. unfold default_play_behavior, Spot.load_settings, mbind, M_bind,
    get_world. simpl. by rewrite H.
Qed.

(** With the setting at ["queue"], a play request on a matched track is
    carried out as a queue request. *)
Lemma play_queue_downgrade sp_client device_id track_query t rest a more w :
  api_search api track_query = Return (Some (t :: rest)) ->
  track_artists t = a :: more ->
  default_play_behavior json_loads w = Return (JString "queue") ->
  exists r evs,
    _handle_spotify_play_queue sp_client device_id
        (JString SPOTIFY_ACTION_PLAY) track_query w
      = (r, log_events
              ([Call (CallSearch track_query);
                Print "   (Setting: 'Play' command interpreted as 'Add to Queue'.)";
                Call (CallAddToQueue (track_uri t) device_id)] ++ evs) w)
    /\ Forall (fun ev => ~ starts_track ev) evs.
Proof.
  intros Hsearch Hartists Hsetting.
  unfold Spot._handle_spotify_play_queue, call, emit, print, modify, lift,
    mbind, M_bind, mret, M_ret.
  simpl. rewrite Hsearch, Hartists. simpl.
  destruct (settings_lookup w _ (Call (CallSearch track_query)) Hsetting)
    as (settings & -> & ->). simpl.
  destruct (api_add_to_queue api (track_uri t) device_id) as [[]|e]; simpl.
  - destruct (api_current_playback api) as [[[]|]|e]; simpl.
    + eexists _, [_; _; _]. split; [reflexivity|not_among].
    + eexists _, [_; _; _; _]. split; [reflexivity|not_among].
    + eexists _, [_; _; _; _]. split; [reflexivity|not_among].
    + eexists _, [_; _]. split; [reflexivity|not_among].
  - eexists _, []. split; [reflexivity|not_among].
Qed.

(** With the setting at anything else, the track is handed to
    [start_playback]. *)
Lemma play_direct sp_client device_id track_query t rest a more behavior w :
  api_search api track_query = Return (Some (t :: rest)) ->
  track_artists t = a :: more ->
  default_play_behavior json_loads w = Return behavior ->
  eq_str behavior "queue" = false ->
  exists r evs,
    _handle_spotify_play_queue sp_client device_id
        (JString SPOTIFY_ACTION_PLAY) track_query w
      = (r, log_events
              ([Call (CallSearch track_query);
                Print "   (Setting: 'Play' command interpreted as 'Play Directly'.)";
                Call (CallStartPlayback device_id (Some [track_uri t]))] ++ evs) w)
    /\ Forall (fun ev => ~ adds_to_queue ev) evs.
Proof.
  intros Hsearch Hartists Hsetting Hne.
  unfold Spot._handle_spotify_play_queue, call, emit, print, modify, lift,
    mbind, M_bind, mret, M_ret.
  simpl. rewrite Hsearch, Hartists. simpl.
  destruct (settings_lookup w _ (Call (CallSearch track_query)) Hsetting)
    as (settings & -> & ->). rewrite Hne. simpl.
  destruct (api_start_playback api device_id (Some [track_uri t])) as [[]|e]; simpl.
  - eexists _, [_]. split; [reflexivity|not_among].
  - eexists _, []. split; [reflexivity|not_among].
Qed.

(** C5. A play request whose track query matches a catalog item (the
    search answers with a first item that names an artist): when the
    default-play-behavior setting is ["queue"], the reinterpretation note
    is printed and [add_to_queue] is called with the matched track, and no
    call hands a track to [start_playback]; when the setting has another
    value, [start_playback] is called with the matched track and nothing
    is queued. *)
Theorem play_follows_setting sp_client device_id track_query t rest a more w :
  api_search api track_query = Return (Some (t :: rest)) ->
  track_artists t = a :: more ->
  (default_play_behavior json_loads w = Return (JString "queue") ->
   exists r evs,
     _handle_spotify_play_queue sp_client device_id
         (JString SPOTIFY_ACTION_PLAY) track_query w
       = (r, log_events
               ([Call (CallSearch track_query);
                 Print "   (Setting: 'Play' command interpreted as 'Add to Queue'.)";
                 Call (CallAddToQueue (track_uri t) device_id)] ++ evs) w)
     /\ Forall (fun ev => ~ starts_track ev) evs)
  /\ (forall behavior,
      default_play_behavior json_loads w = Return behavior ->
      eq_str behavior "queue" = false ->
      exists r evs,
        _handle_spotify_play_queue sp_client device_id
            (JString SPOTIFY_ACTION_PLAY) track_query w
          = (r, log_events
                  ([Call (CallSearch track_query);
                    Print "   (Setting: 'Play' command interpreted as 'Play Directly'.)";
                    Call (CallStartPlayback device_id (Some [track_uri t]))]
                   ++ evs) w)
        /\ Forall (fun ev => ~ adds_to_queue ev) evs).
Proof.
  intros Hsearch Hartists. split.
  - intros Hsetting. by eapply play_queue_downgrade.
  - intros behavior Hsetting Hne. by eapply play_direct.
Qed.

(** C10. Without a settings file [load_settings] gives
    [{"default_play_behavior": "queue"}] and leaves the world as it is;
    so a play request on a matched track is then carried out as a queue
    request: [add_to_queue] is called with the track and no call hands a
    track to [start_playback]. *)
Theorem no_settings_file_queues w :
  settings_file w = None ->
  load_settings w
    = (Return (JObject {[ "default_play_behavior" := JString "queue" ]}), w)
  /\ (forall sp_client device_id track_query t rest a more,
      api_search api track_query = Return (Some (t :: rest)) ->
      track_artists t = a :: more ->
      exists r evs,
        _handle_spotify_play_queue sp_client device_id
            (JString SPOTIFY_ACTION_PLAY) track_query w
          = (r, log_events
                  ([Call (CallSearch track_query);
                    Print "   (Setting: 'Play' command interpreted as 'Add to Queue'.)";
                    Call (CallAddToQueue (track_uri t) device_id)] ++ evs) w)
        /\ Forall (fun ev => ~ starts_track ev) evs).
Proof.
  intros Hfile. split.
  - unfold Spot.load_settings, mbind, M_bind, get_world. simpl. by rewrite Hfile.
  - intros sp_client device_id track_query t rest a more Hsearch Hartists.
    eapply play_queue_downgrade; [done..|]. by apply no_settings_file_behavior.
Qed.
End PlayQueueProperties.

Lemma play_follows_setting_witness :
  let play := Spot._handle_spotify_play_queue Decoder.json_loads Decoder.py_repr
                (Example.service true) Example.the_client "d1"
                (JString "play") (JString "faded") in
  let direct := Example.with_settings
                  ("{" +:+ Decoder.quoted "default_play_behavior" +:+ ": "
                   +:+ Decoder.quoted "play_direct" +:+ "}")
                  (Example.session []) in
  (exists r evs,
     play (Example.session [])
       = (r, log_events
               ([Call (CallSearch (JString "faded"));
                 Print "   (Setting: 'Play' command interpreted as 'Add to Queue'.)";
                 Call (CallAddToQueue "spotify:track:faded" "d1")] ++ evs)
               (Example.session []))
     /\ Forall (fun ev => ~ starts_track ev) evs)
  /\ (exists r evs,
     play direct
       = (r, log_events
               ([Call (CallSearch (JString "faded"));
                 Print "   (Setting: 'Play' command interpreted as 'Play Directly'.)";
                 Call (CallStartPlayback "d1" (Some ["spotify:track:faded"]))]
                ++ evs) direct)
     /\ Forall (fun ev => ~ adds_to_queue ev) evs).
Proof.
  simpl. split.
  - destruct (play_follows_setting Decoder.json_loads Decoder.py_repr
                (Example.service true) Example.the_client "d1" (JString "faded")
                Example.faded [] (Artist "Alan Walker") [] (Example.session []))
      as [Hqueue _]; [reflexivity..|].
    apply Hqueue. reflexivity.
  - destruct (play_follows_setting Decoder.json_loads Decoder.py_repr
                (Example.service true) Example.the_client "d1" (JString "faded")
                Example.faded [] (Artist "Alan Walker") []
                (Example.with_settings
                   ("{" +:+ Decoder.quoted "default_play_behavior" +:+ ": "
                    +:+ Decoder.quoted "play_direct" +:+ "}")
                   (Example.session [])))
      as [_ Hdirect]; [reflexivity..|].
    apply (Hdirect (JString "play_direct")); reflexivity.
Defined.

Lemma no_settings_file_queues_witness :
  settings_file (Example.session []) = None
  /\ exists r evs,
       Spot._handle_spotify_play_queue Decoder.json_loads Decoder.py_repr
           (Example.service true) Example.the_client "d1"
           (JString "play") (JString "faded") (Example.session [])
         = (r, log_events
                 ([Call (CallSearch (JString "faded"));
                   Print "   (Setting: 'Play' command interpreted as 'Add to Queue'.)";
                   Call (CallAddToQueue "spotify:track:faded" "d1")] ++ evs)
                 (Example.session []))
       /\ Forall (fun ev => ~ starts_track ev) evs.
Proof.
  split; [reflexivity|].
  destruct (no_settings_file_queues Decoder.json_loads Decoder.py_repr
              (Example.service true) (Example.session [])) as [_ Hplay];
    [reflexivity|].
  apply (Hplay Example.the_client "d1" (JString "faded") Example.faded []
           (Artist "Alan Walker") []); reflexivity.
Defined.

(** ** The media handler: device resolution *)

(** C7, where the code departs from it. One device, not active, and the
    user enters [1]: the handler calls [transfer_playback] with
    [force_play=True], which asks the service to start playback on the
    device, and returns the device's id. The comment on that line says
    the transfer should not start playing. *)
Theorem transfer_playback_forces_play :
  Spot.get_active_device_id (Example.service false) Example.the_client
      (Example.session ["1"])
    = (Return (Some "d1"),
       World (Some Example.the_client) true (Some "token-1") None []
         [Call CallDevices;
          Print ">> No active Spotify device found. Available devices:";
          Print "   1. Kitchen (Speaker)";
          Prompt "Enter number of device to use (or 's' to skip): ";
          Call (CallTransferPlayback "d1" true)]).
Proof. reflexivity. Qed.

(** ** The media handler: expired tokens *)

Section TokenProperties.
Variable json_loads : string -> option json.
Variable py_repr : json -> string.
Variable api : spotify_api.

#[local] Abbreviation find_device := (Spot.find_device api).
#[local] Abbreviation get_active_device_id := (Spot.get_active_device_id api).
#[local] Abbreviation get_spotify_client := (Spot.get_spotify_client api).
#[local] Abbreviation perform_action := (Spot.perform_action json_loads py_repr api).
#[local] Abbreviation handle_spotify_command :=
  (Spot.handle_spotify_command json_loads py_repr api).

Lemma invalidate_token_run w :
  exists w', Spot.invalidate_token w = (Return tt, w')
    /\ sp w' = None /\ cache_file w' = None
    /\ trace w' = (trace w ++ cache_removal w)%list.
Proof.
  unfold Spot.invalidate_token, cache_removal, mbind, M_bind, get_world, emit, modify.
  simpl. destruct (cache_file w) eqn:Hcache; simpl.
  - eexists. split; [reflexivity|]. by repeat split.
  - eexists. split; [reflexivity|]. simpl.
    split; [done|]. split; [done|]. symmetry. apply app_nil_r.
Qed.


Lemma action_failed_invalidates device_id msg w1 :
  Spot.token_expired msg = true ->
  str_contains "No active device found" msg = false ->
  exists w2,
    Spot.action_failed device_id (SpotifyException msg) w1 = (Return tt, w2)
    /\ sp w2 = None /\ cache_file w2 = None
    /\ trace w2
       = (trace w1
          ++ Print "   Spotify Error: Access token expired. Attempting to re-authenticate on next command."
             :: cache_removal w1)%list.
Proof.
  intros Hmsg Hdev. unfold Spot.action_failed. rewrite Hdev, Hmsg.
  unfold mbind, M_bind, print, emit, modify. simpl.
  destruct (invalidate_token_run (log_event (Print "   Spotify Error: Access token expired. Attempting to re-authenticate on next command.") w1)) as (w2 & -> & Hsp & Hcache & Htrace).
  exists w2. repeat split; try done.
  rewrite Htrace. simpl. by rewrite <- app_assoc.
Qed.


End TokenProperties.



(** * Further properties of the code *)

(** ** llm.py: what [parse_command] passes through and what escapes it *)

Section ParserFurther.
Variable json_loads : string -> option json.

#[local] Abbreviation completion_text := Llm.completion_text.
#[local] Abbreviation parse_command := (Llm.parse_command json_loads).

(** X1. A completion that decodes to an object with an ["intent"] key is
    returned as it was decoded: neither the value of the intent nor any
    nested field is inspected or changed. *)
Theorem parse_command_passthrough user_input api_response text members :
  completion_text (Return api_response) = Return text ->
  json_loads text = Some (JObject members) ->
  is_Some (members !! "intent") ->
  parse_command user_input (Return api_response) = Return (JObject members).
Proof.
  intros Htext Hloads Hkey. unfold Llm.parse_command. rewrite Htext.
  unfold Llm.decode_command. rewrite Hloads. simpl.
  by rewrite bool_decide_eq_true_2.
Qed.

(** X2. Whatever [parse_command] raises, it is never an instance of
    [json.JSONDecodeError] nor of [requests.RequestException]: those two
    classes are always absorbed or replaced. *)
Theorem parse_command_escapes user_input response e :
  parse_command user_input response = Raise e ->
  isinstance_JSONDecodeError e = false
  /\ isinstance_RequestException e = false.
Proof.
  assert (Hexcept : forall bound e0,
    Llm.parse_command_except user_input bound e0 = Raise e ->
    isinstance_JSONDecodeError e = false
    /\ isinstance_RequestException e = false).
  { intros bound e0. unfold Llm.parse_command_except.
    destruct (isinstance_JSONDecodeError e0) eqn:Hj.
    - destruct bound; [discriminate|]. by intros [= <-].
    - destruct (isinstance_RequestException e0) eqn:Hr; [discriminate|].
      by intros [= <-]. }
  unfold Llm.parse_command.
  destruct (completion_text response) as [text|e0]; [|apply Hexcept].
  destruct (Llm.decode_command json_loads user_input text) as [v|e0];
    [discriminate|apply Hexcept].
Qed.

(** X3. When the request itself ends in a JSON decode error (the body of
    a successful response is not JSON, so [response.json()] raises), the
    first [except] clause is entered with [llm_text_output] still
    unbound, and formatting its log line raises [UnboundLocalError]
    instead of returning a fallback Command. *)
Theorem parse_command_body_not_json user_input e :
  isinstance_JSONDecodeError e = true ->
  parse_command user_input (Raise e) = Raise UnboundLocalError
  /\ (forall text, Llm.parse_command_except user_input (Some text) e
                   = Return (Llm.unknown_command user_input)).
Proof.
  intros He. unfold Llm.parse_command, Llm.parse_command_except. simpl.
  rewrite He. by split.
Qed.

(** X4. A body that is not a JSON object, or whose ["response"] field is
    not a string, makes [parse_command] raise [AttributeError]; a body
    without the field is read as the empty completion. *)
Theorem parse_command_malformed_body user_input :
  (forall api_response,
     (forall members, api_response <> JObject members) ->
     parse_command user_input (Return api_response) = Raise AttributeError)
  /\ (forall members v,
     members !! "response" = Some v ->
     (forall s, v <> JString s) ->
     parse_command user_input (Return (JObject members)) = Raise AttributeError)
  /\ (forall members,
     members !! "response" = None ->
     completion_text (Return (JObject members)) = Return "").
Proof.
  split; [|split].
  - intros api_response Hne.
    destruct api_response; try reflexivity. by destruct (Hne members).
  - intros members v Hv Hne.
    unfold Llm.parse_command, completion_text, mbind, outcome_bind. simpl.
    rewrite Hv. simpl. destruct v; try reflexivity. by destruct (Hne s).
  - intros members Hv. unfold completion_text, mbind, outcome_bind. simpl.
    by rewrite Hv.
Qed.
End ParserFurther.

Lemma parse_command_passthrough_witness :
  Llm.parse_command Decoder.json_loads "dance"
      (Example.completion (Example.intent_text (Decoder.quoted "banana")))
    = Return (JObject {[ "intent" := JString "banana" ]}).
Proof.
  apply (parse_command_passthrough Decoder.json_loads "dance" _
           (Example.intent_text (Decoder.quoted "banana"))); [reflexivity..|].
  by eexists.
Defined.

Lemma parse_command_escapes_witness :
  Llm.parse_command Decoder.json_loads "turn it up" (Example.completion "42")
    = Raise TypeError
  /\ isinstance_JSONDecodeError TypeError = false
  /\ isinstance_RequestException TypeError = false.
Proof.
  split; [reflexivity|].
  apply (parse_command_escapes Decoder.json_loads "turn it up"
           (Example.completion "42")). reflexivity.
Defined.

Lemma parse_command_body_not_json_witness :
  isinstance_JSONDecodeError RequestsJSONDecodeError = true
  /\ Llm.parse_command Decoder.json_loads "hello" (Raise RequestsJSONDecodeError)
     = Raise UnboundLocalError.
Proof.
  split; [reflexivity|].
  apply (parse_command_body_not_json Decoder.json_loads "hello"
           RequestsJSONDecodeError). reflexivity.
Defined.

Lemma parse_command_malformed_body_witness :
  Llm.parse_command Decoder.json_loads "hello" (Return (JArray []))
    = Raise AttributeError
  /\ Llm.parse_command Decoder.json_loads "hello"
       (Return (JObject {[ "response" := JInt 5 ]}))
     = Raise AttributeError.
Proof.
  destruct (parse_command_malformed_body Decoder.json_loads "hello")
    as (Hbody & Hfield & _).
  split.
  - apply Hbody. intros members. discriminate.
  - apply (Hfield _ (JInt 5)); [reflexivity|]. intros s. discriminate.
Defined.

(** ** main.py: the loop turn and the handlers at their edges *)

Section MainFurther.
Variable json_loads : string -> option json.
Variable py_repr : json -> string.
Variable api : spotify_api.
Variable generate : string -> outcome json.

#[local] Abbreviation parse_command := (Llm.parse_command json_loads).
#[local] Abbreviation dispatch := (Main.dispatch json_loads py_repr api).
#[local] Abbreviation cli_turn := (Main.cli_turn json_loads py_repr api generate).
#[local] Abbreviation handle_website := (Main.handle_website py_repr).


(** X6. Parser and dispatcher together: whenever [parse_command] falls
    back to the unknown Command carrying [query] (the utterance, or
    [Connection Error]), the turn prints the three lines of the unknown
    handler with that query, opens nothing and calls nothing. *)
Theorem cli_turn_fallback line rest query w :
  stdin w = line :: rest ->
  str_strip line <> "" ->
  ~ leaves_loop line ->
  parse_command (str_strip line) (generate (str_strip line))
    = Return (Llm.unknown_command query) ->
  cli_turn w
    = (Return true,
       log_events [Prompt "You > ";
                   Print ">> [SYSTEM]";
                   Print "   Status: Command not recognized or unsupported.";
                   Print ("   Input was: '" +:+ query +:+ "'")]
                  (set_stdin rest w)).
Proof.
  intros Hin Hne Hstay Hparse.
  unfold Main.cli_turn, try_except, input, mbind, M_bind, lift. simpl.
  rewrite Hin. simpl.
  apply String.eqb_neq in Hne. rewrite Hne. simpl.
  destruct (String.eqb (str_lower (str_strip line)) "exit") eqn:Hexit.
  { destruct Hstay. left. by apply String.eqb_eq. }
  destruct (String.eqb (str_lower (str_strip line)) "quit") eqn:Hquit.
  { destruct Hstay. right. by apply String.eqb_eq. }
  simpl. rewrite Hparse. reflexivity.
Qed.

(** X7. When [parse_command] returns a value that is not an object (a
    JSON list or string in which ["intent"] occurs passes its test), the
    turn shows nothing: the [.get] of the dispatch raises and the loop
    swallows it. *)
Theorem cli_turn_drops_non_object line rest command w :
  stdin w = line :: rest ->
  str_strip line <> "" ->
  ~ leaves_loop line ->
  parse_command (str_strip line) (generate (str_strip line)) = Return command ->
  (forall members, command <> JObject members) ->
  cli_turn w = (Return true, log_events [Prompt "You > "] (set_stdin rest w)).
Proof.
  intros Hin Hne Hstay Hparse Hshape.
  unfold Main.cli_turn, try_except, input, mbind, M_bind, lift. simpl.
  rewrite Hin. simpl.
  apply String.eqb_neq in Hne. rewrite Hne. simpl.
  destruct (String.eqb (str_lower (str_strip line)) "exit") eqn:Hexit.
  { destruct Hstay. left. by apply String.eqb_eq. }
  destruct (String.eqb (str_lower (str_strip line)) "quit") eqn:Hquit.
  { destruct Hstay. right. by apply String.eqb_eq. }
  simpl. rewrite Hparse.
  destruct command; try reflexivity. by destruct (Hshape members).
Qed.

(** X8. The website handler without a usable query: a missing query
    opens [https://Website URL], the placeholder with the scheme put in
    front; a query that is not a string raises [AttributeError] after the
    two header lines, and nothing is opened. *)
Theorem handle_website_edge members w :
  (members !! "query" = None ->
   handle_website (JObject members) w
     = (Return tt,
        log_events [Print ">> [BROWSER]";
                    Print "   Action: Opening Website";
                    Print "   Target: 'https://Website URL'";
                    BrowserOpen "https://Website URL"] w))
  /\ (forall v,
      members !! "query" = Some v ->
      (forall s, v <> JString s) ->
      handle_website (JObject members) w
        = (Raise AttributeError,
           log_events [Print ">> [BROWSER]";
                       Print "   Action: Opening Website"] w)).
Proof.
  split.
  - intros H. unfold Main.handle_website, mbind, M_bind, lift. simpl.
    by rewrite H.
  - intros v H Hne. unfold Main.handle_website, mbind, M_bind, lift. simpl.
    rewrite H. simpl. destruct v; try reflexivity. by destruct (Hne s).
Qed.
End MainFurther.

Lemma cli_turn_fallback_witness :
  Main.cli_turn Decoder.json_loads Decoder.py_repr (Example.service true)
      (fun _ => Raise RequestException) (Example.session ["  play something "])
    = (Return true,
       log_events [Prompt "You > ";
                   Print ">> [SYSTEM]";
                   Print "   Status: Command not recognized or unsupported.";
                   Print "   Input was: 'Connection Error'"]
                  (set_stdin [] (Example.session ["  play something "]))).
Proof.
  apply (cli_turn_fallback Decoder.json_loads Decoder.py_repr (Example.service true)
           (fun _ => Raise RequestException) "  play something " []
           "Connection Error"); [reflexivity|discriminate| |reflexivity].
  intros [H|H]; discriminate H.
Defined.

Lemma cli_turn_drops_non_object_witness :
  Main.cli_turn Decoder.json_loads Decoder.py_repr (Example.service true)
      (fun _ => Example.completion ("[" +:+ Decoder.quoted "intent" +:+ "]"))
      (Example.session ["play something"])
    = (Return true,
       log_events [Prompt "You > "]
                  (set_stdin [] (Example.session ["play something"]))).
Proof.
  apply (cli_turn_drops_non_object Decoder.json_loads Decoder.py_repr
           (Example.service true)
           (fun _ => Example.completion ("[" +:+ Decoder.quoted "intent" +:+ "]"))
           "play something" [] (JArray [JString "intent"]));
    [reflexivity|discriminate| |reflexivity|discriminate].
  intros [H|H]; discriminate H.
Defined.

Lemma handle_website_edge_witness :
  Main.handle_website Decoder.py_repr (JObject {[ "intent" := JString "website" ]})
      (Example.session [])
    = (Return tt,
       log_events [Print ">> [BROWSER]";
                   Print "   Action: Opening Website";
                   Print "   Target: 'https://Website URL'";
                   BrowserOpen "https://Website URL"] (Example.session []))
  /\ Main.handle_website Decoder.py_repr (JObject {[ "query" := JInt 3 ]})
      (Example.session [])
    = (Raise AttributeError,
       log_events [Print ">> [BROWSER]";
                   Print "   Action: Opening Website"] (Example.session [])).
Proof.
  split.
  - apply (handle_website_edge Decoder.py_repr {[ "intent" := JString "website" ]}).
    reflexivity.
  - apply (handle_website_edge Decoder.py_repr {[ "query" := JInt 3 ]}
             (Example.session [])) with (v := JInt 3); [reflexivity|].
    intros s. discriminate.
Defined.

(** ** spot.py: validation, device resolution, client reuse, queueing *)

Section SpotFurther.
Variable json_loads : string -> option json.
Variable py_repr : json -> string.
Variable api : spotify_api.
Import SpotifyConfig.

#[local] Abbreviation find_device := (Spot.find_device api).
#[local] Abbreviation get_active_device_id := (Spot.get_active_device_id api).
#[local] Abbreviation get_spotify_client := (Spot.get_spotify_client api).
#[local] Abbreviation perform_action := (Spot.perform_action json_loads py_repr api).
#[local] Abbreviation _handle_spotify_play_queue :=
  (Spot._handle_spotify_play_queue json_loads py_repr api).
#[local] Abbreviation handle_spotify_command :=
  (Spot.handle_spotify_command json_loads py_repr api).

(** X9. A media Command without its details (the key is missing, or its
    value is falsy: null, an empty object) or without an action stops
    at the corresponding error line: no client is acquired, no prompt is
    shown and no call is made. *)
Theorem handle_spotify_command_incomplete members w :
  (forall details,
     default JNull (members !! "spotify_command") = details ->
     truthy details = false ->
     handle_spotify_command (JObject members) w
       = (Return tt,
          log_events [Print ">> [SPOTIFY]";
                      Print "   Error: Missing 'spotify_command' details for Spotify intent."] w))
  /\ (forall details action,
     members !! "spotify_command" = Some (JObject details) ->
     truthy (JObject details) = true ->
     default JNull (details !! "action") = action ->
     truthy action = false ->
     handle_spotify_command (JObject members) w
       = (Return tt,
          log_events [Print ">> [SPOTIFY]";
                      Print "   Error: Spotify command missing 'action' field."] w)).
Proof.
  split.
  - intros details Hd Ht.
    unfold Spot.handle_spotify_command, mbind, M_bind, lift, print, emit, modify.
    simpl. rewrite Hd, Ht. reflexivity.
  - intros details action Hd Ht Ha Hf.
    unfold Spot.handle_spotify_command, mbind, M_bind, lift, print, emit, modify.
    simpl. rewrite Hd. simpl. simpl in Ht. rewrite Ht. simpl.
    rewrite Ha, Hf. reflexivity.
Qed.

(** X10. With client and device at hand: a play or queue action
    without a (truthy) track query, and an action that is none of the
    six action strings, print their error line and make no call, not
    even a search. *)
Theorem perform_action_rejects sp_client device_id action track_query w :
  (eq_str action SPOTIFY_ACTION_PLAY || eq_str action SPOTIFY_ACTION_QUEUE = true ->
   truthy track_query = false ->
   perform_action sp_client device_id action track_query w
     = (Return tt,
        log_events [Print ("   Error: '" +:+ py_str py_repr action
                           +:+ "' command requires a 'track_query'.")] w))
  /\ ((forall s, s ∈ [SPOTIFY_ACTION_PLAY; SPOTIFY_ACTION_QUEUE;
                      SPOTIFY_ACTION_SKIP_NEXT; SPOTIFY_ACTION_SKIP_PREVIOUS;
                      SPOTIFY_ACTION_PAUSE; SPOTIFY_ACTION_RESUME] ->
                 action <> JString s) ->
      perform_action sp_client device_id action track_query w
        = (Return tt,
           log_events [Print ("   Unknown Spotify action: '"
                              +:+ py_str py_repr action +:+ "'.")] w)).
Proof.
  split.
  - intros Ha Hq. unfold Spot.perform_action. rewrite Ha, Hq. reflexivity.
  - intros Hne.
    assert (Hno : forall s, s ∈ [SPOTIFY_ACTION_PLAY; SPOTIFY_ACTION_QUEUE;
                      SPOTIFY_ACTION_SKIP_NEXT; SPOTIFY_ACTION_SKIP_PREVIOUS;
                      SPOTIFY_ACTION_PAUSE; SPOTIFY_ACTION_RESUME] ->
                   eq_str action s = false).
    { intros s Hs. destruct action; try reflexivity. simpl.
      apply String.eqb_neq. intros ->. by apply (Hne s). }
    unfold Spot.perform_action.
    rewrite !Hno by (rewrite !elem_of_cons; tauto). reflexivity.
Qed.

(** X11. When some device is active, its id (the first active one in
    the service's order) is returned after the one [devices] call: no
    prompt, no transfer. *)
Theorem find_device_prefers_active sp_client devices d others w :
  api_devices api = Return devices ->
  List.filter dev_is_active devices = d :: others ->
  get_active_device_id sp_client w
    = (Return (Some (dev_id d)), log_events [Call CallDevices] w).
Proof.
  intros Hdev Hact.
  unfold Spot.get_active_device_id, try_except, Spot.find_device, call, emit,
    modify, lift, mbind, M_bind. simpl.
  rewrite Hdev. simpl. rewrite Hact. reflexivity.
Qed.

(** X12. With no device at all the resolution reports it and returns
    [None] after the one [devices] call. *)
Theorem get_active_device_id_no_devices sp_client w :
  api_devices api = Return [] ->
  get_active_device_id sp_client w
    = (Return None,
       log_events [Call CallDevices;
                   Print "No Spotify devices found. Please open Spotify on a device and ensure it's logged in."] w).
Proof.
  intros Hdev.
  unfold Spot.get_active_device_id, try_except, Spot.find_device, call, emit,
    modify, lift, mbind, M_bind. simpl.
  rewrite Hdev. reflexivity.
Qed.

(** X13. Device resolution never raises: whatever the service answers
    or raises, and whatever is typed (or not) at the prompt, it returns
    a device id or [None]. *)
Theorem get_active_device_id_returns sp_client w :
  exists r w', get_active_device_id sp_client w = (Return r, w').
Proof.
  unfold Spot.get_active_device_id, try_except.
  destruct (find_device sp_client w) as [[r|e] w1]; [by eexists _, _|].
  unfold Spot.device_check_failed.
  destruct e; try (by eexists _, _).
  unfold mbind, M_bind, print, emit, modify. simpl.
  destruct (Spot.token_expired msg); simpl; [|by eexists _, _].
  destruct (invalidate_token_run (log_event (Print "Spotify Error: Access token expired. Please restart the app for re-authentication.") w1)) as (w2 & -> & _).
  by eexists _, _.
Qed.

(** X14. The action phase never raises: when the [try] body of
    [handle_spotify_command] raises, the handler returns normally after
    printing one status line, followed only, for an expired token, by
    the removal of the cache file; nothing is called after the failure. *)
Theorem action_phase_returns sp_client device_id action track_query w :
  exists w',
    try_except (perform_action sp_client device_id action track_query)
               (Spot.action_failed device_id) w
      = (Return tt, w')
    /\ (perform_action sp_client device_id action track_query w = (Return tt, w')
        \/ exists e w1 line,
             perform_action sp_client device_id action track_query w
               = (Raise e, w1)
             /\ (trace w' = (trace w1 ++ [Print line])%list
                 \/ trace w' = (trace w1 ++ Print line :: cache_removal w1)%list)).
Proof.
  unfold try_except.
  destruct (perform_action sp_client device_id action track_query w)
    as [[[]|e] w1]; [eexists; split; [reflexivity|by left]|].
  assert (Hline : forall line,
    exists w', print line w1 = (Return tt, w')
      /\ trace w' = (trace w1 ++ [Print line])%list).
  { intros line. by eexists. }
  assert (Hplain : forall line,
    exists w', print line w1 = (Return tt, w')
      /\ ((Raise e, w1) = (Return tt, w')
          \/ exists e0 w0 line0,
               (@Raise unit e, w1) = (Raise e0, w0)
               /\ (trace w' = (trace w0 ++ [Print line0])%list
                   \/ trace w' = (trace w0 ++ Print line0 :: cache_removal w0)%list))).
  { intros line. eexists. split; [reflexivity|]. right.
    exists e, w1, line. split; [reflexivity|by left]. }
  unfold Spot.action_failed.
  destruct e; try apply Hplain.
  destruct (str_contains "No active device found" msg) eqn:Hdev; [apply Hplain|].
  destruct (Spot.token_expired msg) eqn:Hmsg.
  - destruct (action_failed_invalidates device_id msg w1 Hmsg Hdev)
      as (w2 & Hrun & _ & _ & Htrace).
    unfold Spot.action_failed in Hrun. rewrite Hdev, Hmsg in Hrun.
    exists w2. split; [exact Hrun|]. right.
    eexists _, w1, _. split; [reflexivity|]. right. exact Htrace.
  - destruct (str_contains "Restriction violated" msg); apply Hplain.
Qed.

(** X15. At the device prompt, for an entered line of ASCII characters
    (at most 4300 of them): [s] or [S] skips, returning [None] with no
    transfer; a line that [int] rejects, and a number outside
    [1 .. len(devices)], print their message, transfer nothing and let
    the loop ask again. *)
Theorem select_device_declines sp_client devs line w :
  let choice := str_strip line in
  is_ascii line = true ->
  (String.length line <= 4300)%nat ->
  (str_lower choice = "s" ->
   Spot.select_device api sp_client devs choice w
     = (Return (Some None),
        log_events [Print "Skipping Spotify action due to no device selection."] w))
  /\ (str_lower choice <> "s" -> py_int choice = None ->
      Spot.select_device api sp_client devs choice w
        = (Return None,
           log_events [Print "Invalid input. Please enter a number or 's'."] w))
  /\ (forall n, str_lower choice <> "s" -> py_int choice = Some n ->
      (n < 1 \/ Z.of_nat (List.length devs) < n)%Z ->
      Spot.select_device api sp_client devs choice w
        = (Return None,
           log_events [Print "Invalid choice. Please enter a valid number."] w)).
Proof.
  intros choice _ _. split; [|split].
  - intros Hs. unfold Spot.select_device, try_except. rewrite Hs. reflexivity.
  - intros Hs Hint. apply String.eqb_neq in Hs.
    unfold Spot.select_device, try_except. rewrite Hs, Hint. reflexivity.
  - intros n Hs Hint Hrange. apply String.eqb_neq in Hs.
    unfold Spot.select_device, try_except. rewrite Hs, Hint.
    destruct ((0 <=? n - 1) && (n - 1 <? Z.of_nat (List.length devs)))%Z eqn:Hb;
      [|reflexivity].
    apply andb_true_iff in Hb as [H1 H2]. lia.
Qed.

(** X16. A client once built is returned as it is on every later call,
    whatever the cache file has become; with no client but a cached
    token, the client is built from the token without any prompt, and
    asking again returns the same client and changes nothing. *)
Theorem get_spotify_client_reuses w :
  (forall c, sp w = Some c ->
     get_spotify_client w = (Return (Some c), set_spotify_oauth true w))
  /\ (forall t, sp w = None -> cache_file w = Some t ->
     get_spotify_client w
       = (Return (Some (Client t)),
          set_sp (Some (Client t)) (set_spotify_oauth true w))
     /\ get_spotify_client (set_sp (Some (Client t)) (set_spotify_oauth true w))
       = (Return (Some (Client t)),
          set_sp (Some (Client t)) (set_spotify_oauth true w))).
Proof.
  split.
  - intros c Hsp.
    unfold Spot.get_spotify_client, Spot.init_spotify_oauth, mbind, M_bind,
      get_world, modify. simpl.
    destruct w as [s o c0 f i tr]. simpl in *. subst s.
    destruct o; reflexivity.
  - intros t Hsp Hcache.
    unfold Spot.get_spotify_client, Spot.init_spotify_oauth,
      Spot.get_cached_token, mbind, M_bind, get_world, modify. simpl.
    destruct w as [s o c0 f i tr]. simpl in *. subst s c0.
    destruct o; split; reflexivity.
Qed.

(** X17. When the search gives nothing (a falsy result or no item) the
    only call made is the search, and the not-found line is printed,
    for play and queue alike. *)
Theorem play_queue_no_match sp_client device_id action track_query w :
  api_search api track_query = Return None
  \/ api_search api track_query = Return (Some []) ->
  _handle_spotify_play_queue sp_client device_id action track_query w
    = (Return tt,
       log_events [Call (CallSearch track_query);
                   Print ("   No Spotify track found for '"
                          +:+ py_str py_repr track_query +:+ "'.")] w).
Proof.
  intros [H|H];
    unfold Spot._handle_spotify_play_queue, call, emit, print, modify, lift,
      mbind, M_bind; simpl; rewrite H; reflexivity.
Qed.

(** X18. After a successful queue request the playback state is read:
    if something is playing nothing more is called; if nothing is
    playing (no state, or not playing) [start_playback] is called on the
    device without a track, and its outcome is the outcome of the
    request. *)
Theorem queue_starts_idle_playback sp_client device_id track_query t rest a more w :
  api_search api track_query = Return (Some (t :: rest)) ->
  track_artists t = a :: more ->
  api_add_to_queue api (track_uri t) device_id = Return tt ->
  let added :=
    [Call (CallSearch track_query);
     Call (CallAddToQueue (track_uri t) device_id);
     Print ("   Action: Added '" +:+ track_name t +:+ "' by "
            +:+ artist_name a +:+ " to queue!");
     Call CallCurrentPlayback] in
  (api_current_playback api = Return (Some true) ->
   _handle_spotify_play_queue sp_client device_id
       (JString SPOTIFY_ACTION_QUEUE) track_query w
     = (Return tt,
        log_events (added ++ [Print "   Note: Music is already playing. Track added to queue."]) w))
  /\ (api_current_playback api = Return None
      \/ api_current_playback api = Return (Some false) ->
      _handle_spotify_play_queue sp_client device_id
          (JString SPOTIFY_ACTION_QUEUE) track_query w
        = (api_start_playback api device_id None,
           log_events (added ++ [Print "   Note: Music was paused, starting playback now.";
                                 Call (CallStartPlayback device_id None)]) w)).
Proof.
  intros Hsearch Hartists Hadd. simpl. split.
  - intros Hcur.
    unfold Spot._handle_spotify_play_queue, call, emit, print, modify, lift,
      mbind, M_bind, mret, M_ret. simpl.
    rewrite Hsearch, Hartists. simpl. rewrite Hadd. simpl. rewrite Hcur.
    reflexivity.
  - intros [Hcur|Hcur];
      unfold Spot._handle_spotify_play_queue, call, emit, print, modify, lift,
        mbind, M_bind, mret, M_ret; simpl;
      rewrite Hsearch, Hartists; simpl; rewrite Hadd; simpl; rewrite Hcur;
      reflexivity.
Qed.

(** X19. A settings file that does not decode makes a play request fail
    after the search and before any playback call: [load_settings] lets
    [JSONDecodeError] through, and the handler reports an unexpected
    error. *)
Theorem play_with_unreadable_settings sp_client device_id track_query
    t rest a more text w :
  api_search api track_query = Return (Some (t :: rest)) ->
  track_artists t = a :: more ->
  settings_file w = Some text ->
  json_loads text = None ->
  _handle_spotify_play_queue sp_client device_id
      (JString SPOTIFY_ACTION_PLAY) track_query w
    = (Raise JSONDecodeError, log_events [Call (CallSearch track_query)] w)
  /\ try_except (perform_action sp_client device_id
                   (JString SPOTIFY_ACTION_PLAY) track_query)
                (Spot.action_failed device_id) w
     = (if truthy track_query
        then (Return tt,
              log_events [Call (CallSearch track_query);
                          Print "   An unexpected error occurred with Spotify."] w)
        else (Return tt,
              log_events [Print "   Error: 'play' command requires a 'track_query'."] w)).
Proof.
  intros Hsearch Hartists Hfile Hloads.
  assert (Hrun : _handle_spotify_play_queue sp_client device_id
      (JString SPOTIFY_ACTION_PLAY) track_query w
    = (Raise JSONDecodeError, log_events [Call (CallSearch track_query)] w)).
  { unfold Spot._handle_spotify_play_queue, Spot.load_settings, call, emit,
      print, modify, lift, get_world, mbind, M_bind, mret, M_ret, raise. simpl.
    rewrite Hsearch, Hartists. simpl. rewrite Hfile, Hloads. reflexivity. }
  split; [exact Hrun|].
  unfold try_except, Spot.perform_action. simpl.
  destruct (truthy track_query); simpl; [|reflexivity].
  rewrite Hrun. reflexivity.
Qed.

(** X20. An explicit queue request never reads the settings: replacing
    the settings file (by any content, or removing it) changes neither
    its outcome nor anything it does. *)
Theorem queue_ignores_settings sp_client device_id track_query file w :
  _handle_spotify_play_queue sp_client device_id
      (JString SPOTIFY_ACTION_QUEUE) track_query (set_settings_file file w)
    = (let (r, w') :=
         _handle_spotify_play_queue sp_client device_id
           (JString SPOTIFY_ACTION_QUEUE) track_query w
       in (r, set_settings_file file w')).
Proof.
  unfold Spot._handle_spotify_play_queue, call, emit, print, modify, lift,
    mbind, M_bind, mret, M_ret, raise. simpl.
  destruct (api_search api track_query) as [[[|t rest]|]|e]; try reflexivity.
  simpl. destruct (track_artists t) as [|a more]; [reflexivity|]. simpl.
  destruct (api_add_to_queue api (track_uri t) device_id) as [[]|e]; [|reflexivity].
  simpl. destruct (api_current_playback api) as [[[]|]|e]; try reflexivity.
  all: simpl; destruct (api_start_playback api device_id None); reflexivity.
Qed.

(** X21. A service error during device resolution whose text names no
    expired token is reported with its text, and the credential (cache
    file and client) is left as it was. *)
Theorem device_check_keeps_credential sp_client msg w w1 :
  find_device sp_client w = (Raise (SpotifyException msg), w1) ->
  Spot.token_expired msg = false ->
  get_active_device_id sp_client w
    = (Return None,
       log_events [Print ("An API error occurred while checking Spotify devices: "
                          +:+ msg)] w1).
Proof.
  intros Hfind Hmsg.
  unfold Spot.get_active_device_id, try_except. rewrite Hfind.
  unfold Spot.device_check_failed. rewrite Hmsg. reflexivity.
Qed.

(** X22. In the action phase the test for [No active device found]
    comes first: an error carrying that text is reported as a missing
    device and the credential is kept, even if the text also names an
    expired token. *)
Theorem action_failed_no_device_first device_id msg w :
  str_contains "No active device found" msg = true ->
  Spot.action_failed device_id (SpotifyException msg) w
    = (Return tt,
       log_events [Print "   Spotify Error: No active playback device found. Please start Spotify on a device first."] w).
Proof. intros H. unfold Spot.action_failed. by rewrite H. Qed.

(** X23. Skip, previous, pause and resume make exactly one call on the
    resolved device (resume is [start_playback] without a track), ignore
    the track query, and print their line only when the call succeeds. *)
Theorem transport_actions sp_client device_id track_query w :
  let run action := perform_action sp_client device_id (JString action)
                      track_query w in
  let one (c : api_call) (answer : outcome unit) (line : string) :=
    match answer with
    | Return _ => (Return tt, log_events [Call c; Print line] w)
    | Raise e => (Raise e, log_events [Call c] w)
    end in
  run SPOTIFY_ACTION_SKIP_NEXT
    = one (CallNextTrack device_id) (api_next_track api device_id)
          "   Action: Skipped to next track!"
  /\ run SPOTIFY_ACTION_SKIP_PREVIOUS
    = one (CallPreviousTrack device_id) (api_previous_track api device_id)
          "   Action: Skipped to previous track!"
  /\ run SPOTIFY_ACTION_PAUSE
    = one (CallPausePlayback device_id) (api_pause_playback api device_id)
          "   Action: Playback paused."
  /\ run SPOTIFY_ACTION_RESUME
    = one (CallStartPlayback device_id None) (api_start_playback api device_id None)
          "   Action: Playback resumed.".
Proof.
  simpl. unfold Spot.perform_action, Spot._handle_spotify_skip,
    Spot._handle_spotify_playback_control, call, emit, print, modify, lift,
    mbind, M_bind. simpl.
  split; [|split; [|split]].
  - by destruct (api_next_track api device_id) as [[]|].
  - by destruct (api_previous_track api device_id) as [[]|].
  - by destruct (api_pause_playback api device_id) as [[]|].
  - by destruct (api_start_playback api device_id None) as [[]|].
Qed.
End SpotFurther.

Lemma handle_spotify_command_incomplete_witness :
  Spot.handle_spotify_command Decoder.json_loads Decoder.py_repr (Example.service true)
      (JObject {[ "intent" := JString "spotify" ]}) (Example.session [])
    = (Return tt,
       log_events [Print ">> [SPOTIFY]";
                   Print "   Error: Missing 'spotify_command' details for Spotify intent."]
                  (Example.session []))
  /\ Spot.handle_spotify_command Decoder.json_loads Decoder.py_repr (Example.service true)
      (JObject {[ "intent" := JString "spotify";
                  "spotify_command" := JObject {[ "track_query" := JString "faded" ]} ]})
      (Example.session [])
    = (Return tt,
       log_events [Print ">> [SPOTIFY]";
                   Print "   Error: Spotify command missing 'action' field."]
                  (Example.session [])).
Proof.
  split.
  - apply (handle_spotify_command_incomplete Decoder.json_loads Decoder.py_repr
             (Example.service true) {[ "intent" := JString "spotify" ]}
             (Example.session [])) with (details := JNull); reflexivity.
  - apply (handle_spotify_command_incomplete Decoder.json_loads Decoder.py_repr
             (Example.service true)
             {[ "intent" := JString "spotify";
                "spotify_command" := JObject {[ "track_query" := JString "faded" ]} ]}
             (Example.session []))
      with (details := {[ "track_query" := JString "faded" ]}) (action := JNull);
      reflexivity.
Defined.

Lemma perform_action_rejects_witness :
  Spot.perform_action Decoder.json_loads Decoder.py_repr (Example.service true)
      Example.the_client "d1" (JString "play") JNull (Example.session [])
    = (Return tt,
       log_events [Print "   Error: 'play' command requires a 'track_query'."]
                  (Example.session []))
  /\ Spot.perform_action Decoder.json_loads Decoder.py_repr (Example.service true)
      Example.the_client "d1" (JString "shuffle") JNull (Example.session [])
    = (Return tt,
       log_events [Print "   Unknown Spotify action: 'shuffle'."]
                  (Example.session [])).
Proof.
  split.
  - apply (perform_action_rejects Decoder.json_loads Decoder.py_repr
             (Example.service true) Example.the_client "d1" (JString "play") JNull);
      reflexivity.
  - apply (perform_action_rejects Decoder.json_loads Decoder.py_repr
             (Example.service true) Example.the_client "d1" (JString "shuffle") JNull).
    intros s Hs [= <-]. rewrite !elem_of_cons, elem_of_nil in Hs.
    repeat destruct Hs as [Hs|Hs]; try discriminate Hs; done.
Defined.

Lemma find_device_prefers_active_witness :
  Spot.get_active_device_id
      (Example.with_devices (Return [Example.speaker false;
                                     Device "d2" "Desk" "Computer" true]))
      Example.the_client (Example.session [])
    = (Return (Some "d2"), log_events [Call CallDevices] (Example.session [])).
Proof.
  apply (find_device_prefers_active _ Example.the_client
           [Example.speaker false; Device "d2" "Desk" "Computer" true]
           (Device "d2" "Desk" "Computer" true) []); reflexivity.
Defined.

Lemma get_active_device_id_no_devices_witness :
  Spot.get_active_device_id (Example.with_devices (Return [])) Example.the_client
      (Example.session [])
    = (Return None,
       log_events [Call CallDevices;
                   Print "No Spotify devices found. Please open Spotify on a device and ensure it's logged in."]
                  (Example.session [])).
Proof.
  apply (get_active_device_id_no_devices (Example.with_devices (Return []))).
  reflexivity.
Defined.

Lemma select_device_declines_witness :
  let devs := [Example.speaker false] in
  Spot.select_device (Example.service false) Example.the_client devs "S"
      (Example.session [])
    = (Return (Some None),
       log_events [Print "Skipping Spotify action due to no device selection."]
                  (Example.session []))
  /\ Spot.select_device (Example.service false) Example.the_client devs "one"
      (Example.session [])
    = (Return None,
       log_events [Print "Invalid input. Please enter a number or 's'."]
                  (Example.session []))
  /\ Spot.select_device (Example.service false) Example.the_client devs "2"
      (Example.session [])
    = (Return None,
       log_events [Print "Invalid choice. Please enter a valid number."]
                  (Example.session [])).
Proof.
  simpl. split; [|split].
  - destruct (select_device_declines (Example.service false) Example.the_client
                [Example.speaker false] " S " (Example.session []))
      as (Hskip & _ & _); [reflexivity|simpl; lia|].
    apply Hskip. reflexivity.
  - destruct (select_device_declines (Example.service false) Example.the_client
                [Example.speaker false] "one" (Example.session []))
      as (_ & Hreject & _); [reflexivity|simpl; lia|].
    apply Hreject; [discriminate|reflexivity].
  - destruct (select_device_declines (Example.service false) Example.the_client
                [Example.speaker false] "2" (Example.session []))
      as (_ & _ & Hrange); [reflexivity|simpl; lia|].
    apply (Hrange 2%Z); [discriminate|reflexivity|simpl; lia].
Defined.

Lemma get_spotify_client_reuses_witness :
  Spot.get_spotify_client (Example.service true) (Example.session [])
    = (Return (Some Example.the_client),
       set_spotify_oauth true (Example.session []))
  /\ Spot.get_spotify_client (Example.service true)
       (World None false (Some "token-1") None [] [])
     = (Return (Some (Client "token-1")),
        set_sp (Some (Client "token-1"))
          (set_spotify_oauth true (World None false (Some "token-1") None [] []))).
Proof.
  split.
  - destruct (get_spotify_client_reuses (Example.service true) (Example.session []))
      as [Hclient _].
    apply Hclient. reflexivity.
  - destruct (get_spotify_client_reuses (Example.service true)
                (World None false (Some "token-1") None [] [])) as [_ Htoken].
    apply (Htoken "token-1"); reflexivity.
Defined.

Lemma play_queue_no_match_witness :
  Spot._handle_spotify_play_queue Decoder.json_loads Decoder.py_repr
      (Example.with_search (Return (Some []))) Example.the_client "d1"
      (JString "play") (JString "zzz") (Example.session [])
    = (Return tt,
       log_events [Call (CallSearch (JString "zzz"));
                   Print "   No Spotify track found for 'zzz'."]
                  (Example.session [])).
Proof.
  apply (play_queue_no_match Decoder.json_loads Decoder.py_repr
           (Example.with_search (Return (Some []))) Example.the_client "d1"
           (JString "play") (JString "zzz")).
  right. reflexivity.
Defined.

Lemma queue_starts_idle_playback_witness :
  Spot._handle_spotify_play_queue Decoder.json_loads Decoder.py_repr
      (Example.with_current_playback (Return (Some true))) Example.the_client "d1"
      (JString "queue") (JString "faded") (Example.session [])
    = (Return tt,
       log_events [Call (CallSearch (JString "faded"));
                   Call (CallAddToQueue "spotify:track:faded" "d1");
                   Print "   Action: Added 'Faded' by Alan Walker to queue!";
                   Call CallCurrentPlayback;
                   Print "   Note: Music is already playing. Track added to queue."]
                  (Example.session []))
  /\ Spot._handle_spotify_play_queue Decoder.json_loads Decoder.py_repr
      (Example.with_current_playback (Return (Some false))) Example.the_client "d1"
      (JString "queue") (JString "faded") (Example.session [])
    = (Return tt,
       log_events [Call (CallSearch (JString "faded"));
                   Call (CallAddToQueue "spotify:track:faded" "d1");
                   Print "   Action: Added 'Faded' by Alan Walker to queue!";
                   Call CallCurrentPlayback;
                   Print "   Note: Music was paused, starting playback now.";
                   Call (CallStartPlayback "d1" None)]
                  (Example.session [])).
Proof.
  split.
  - destruct (queue_starts_idle_playback Decoder.json_loads Decoder.py_repr
                (Example.with_current_playback (Return (Some true)))
                Example.the_client "d1" (JString "faded") Example.faded []
                (Artist "Alan Walker") [] (Example.session []))
      as [Hplaying _]; [reflexivity..|].
    apply Hplaying. reflexivity.
  - destruct (queue_starts_idle_playback Decoder.json_loads Decoder.py_repr
                (Example.with_current_playback (Return (Some false)))
                Example.the_client "d1" (JString "faded") Example.faded []
                (Artist "Alan Walker") [] (Example.session []))
      as [_ Hidle]; [reflexivity..|].
    apply Hidle. right. reflexivity.
Defined.

Lemma play_with_unreadable_settings_witness :
  let w := Example.with_settings "{oops" (Example.session []) in
  Spot._handle_spotify_play_queue Decoder.json_loads Decoder.py_repr
      (Example.service true) Example.the_client "d1"
      (JString "play") (JString "faded") w
    = (Raise JSONDecodeError, log_events [Call (CallSearch (JString "faded"))] w).
Proof.
  simpl.
  apply (play_with_unreadable_settings Decoder.json_loads Decoder.py_repr
           (Example.service true) Example.the_client "d1" (JString "faded")
           Example.faded [] (Artist "Alan Walker") [] "{oops"
           (Example.with_settings "{oops" (Example.session []))); reflexivity.
Defined.

Lemma device_check_keeps_credential_witness :
  let msg := "http status: 502, code: -1 - Bad gateway., reason: None" in
  Spot.get_active_device_id
      (Example.with_devices (Raise (SpotifyException msg)))
      Example.the_client (Example.session [])
    = (Return None,
       log_events [Call CallDevices;
                   Print ("An API error occurred while checking Spotify devices: "
                          +:+ msg)] (Example.session [])).
Proof.
  simpl.
  apply (device_check_keeps_credential
           (Example.with_devices
              (Raise (SpotifyException
                        "http status: 502, code: -1 - Bad gateway., reason: None")))
           Example.the_client
           "http status: 502, code: -1 - Bad gateway., reason: None"
           (Example.session [])
           (log_event (Call CallDevices) (Example.session []))); reflexivity.
Defined.

Lemma action_failed_no_device_first_witness :
  let msg := "Player command failed: No active device found (The access token expired)" in
  Spot.token_expired msg = true
  /\ Spot.action_failed "d1" (SpotifyException msg) (Example.session [])
     = (Return tt,
        log_events [Print "   Spotify Error: No active playback device found. Please start Spotify on a device first."]
                   (Example.session [])).
Proof.
  simpl. split; [reflexivity|].
  apply (action_failed_no_device_first "d1"
           "Player command failed: No active device found (The access token expired)").
  reflexivity.
Defined.
